(** * DecorBot: the furniture-catalogue scraper of [main.py]

    A shallow embedding of [JenniferFurnitureScraper] and the properties its
    design document states about it.

    Conventions of the model.
    - A Python [str] is a [string]; a character is its code point below 256
      (Latin-1), which fixes what [str.strip], [str.lower], [\d] and [\s]
      mean on it.
    - A [dict] is an association list in insertion order; assigning to a key
      that is already there keeps its place, as in Python.
    - The libraries the scraper calls are taken as they are observed:
      a parsed document answers queries ([select], [find_all], [text],
      [get]), [requests.get] maps a URL to a body or fails, [urljoin] joins
      two addresses.  They are variables of the sections below.
    - The scraper object, the requests it sends, what the exporters print and
      the files they write are one explicit state.  Progress and debug lines
      of the crawl and the politeness pauses do not influence any result and
      are left out. *)

From Stdlib Require Import List String Ascii Bool Arith NArith ZArith Lia Sorted.
From Stdlib Require Import DecimalString.
From Stdlib Require Decimal DecimalPos DecimalN.
Import ListNotations.
Open Scope string_scope.
Open Scope nat_scope.
Open Scope list_scope.

(** ** Python strings *)

Module Str.

Definition isspace (c : ascii) : bool :=
  let n := nat_of_ascii c in
  ((9 <=? n) && (n <=? 13)) || ((28 <=? n) && (n <=? 32))
  || (n =? 133) || (n =? 160).

Definition isdigit (c : ascii) : bool :=
  let n := nat_of_ascii c in (48 <=? n) && (n <=? 57).

Definition isalpha_ascii (c : ascii) : bool :=
  let n := nat_of_ascii c in
  ((65 <=? n) && (n <=? 90)) || ((97 <=? n) && (n <=? 122)).

(** [str.lower] on one character. *)
Definition lower_char (c : ascii) : ascii :=
  let n := nat_of_ascii c in
  if ((65 <=? n) && (n <=? 90))
     || ((192 <=? n) && (n <=? 222) && negb (n =? 215))
  then ascii_of_nat (n + 32) else c.

Fixpoint lower (s : string) : string :=
  match s with
  | EmptyString => EmptyString
  | String c s' => String (lower_char c) (lower s')
  end.

Fixpoint lstrip (s : string) : string :=
  match s with
  | EmptyString => EmptyString
  | String c s' => if isspace c then lstrip s' else s
  end.

Fixpoint rstrip (s : string) : string :=
  match s with
  | EmptyString => EmptyString
  | String c s' =>
      match rstrip s' with
      | EmptyString => if isspace c then EmptyString else String c EmptyString
      | r => String c r
      end
  end.

(** [s.strip()] *)
Definition strip (s : string) : string := rstrip (lstrip s).

(** [needle in hay] *)
Fixpoint contains (needle hay : string) : bool :=
  prefix needle hay
  || match hay with
     | EmptyString => false
     | String _ hay' => contains needle hay'
     end.

(** [sep.join(items)] *)
Fixpoint join (sep : string) (items : list string) : string :=
  match items with
  | [] => EmptyString
  | [x] => x
  | x :: rest => (x ++ sep ++ join sep rest)%string
  end.

(** The characters of a string, as iterating over it yields them. *)
Fixpoint chars (s : string) : list string :=
  match s with
  | EmptyString => []
  | String c s' => String c EmptyString :: chars s'
  end.

(** Longest prefix whose characters satisfy [p], and the rest. *)
Fixpoint span (p : ascii -> bool) (s : string) : string * string :=
  match s with
  | EmptyString => (EmptyString, EmptyString)
  | String c s' =>
      if p c then let '(a, b) := span p s' in (String c a, b)
      else (EmptyString, s)
  end.

Fixpoint filter (p : ascii -> bool) (s : string) : string :=
  match s with
  | EmptyString => EmptyString
  | String c s' => if p c then String c (filter p s') else filter p s'
  end.

Fixpoint all (p : ascii -> bool) (s : string) : bool :=
  match s with
  | EmptyString => true
  | String c s' => p c && all p s'
  end.

(** [s] without the literal prefix [p], when it starts with it. *)
Fixpoint drop_prefix (p s : string) : option string :=
  match p, s with
  | EmptyString, _ => Some s
  | String a p', String b s' =>
      if Ascii.eqb a b then drop_prefix p' s' else None
  | String _ _, EmptyString => None
  end.

(** The same, comparing letters without regard to case; [p] is lower case. *)
Fixpoint drop_prefix_nocase (p s : string) : option string :=
  match p, s with
  | EmptyString, _ => Some s
  | String a p', String b s' =>
      if Ascii.eqb a (lower_char b) then drop_prefix_nocase p' s' else None
  | String _ _, EmptyString => None
  end.

(** [s.endswith(suffix)] *)
Fixpoint endswith (suffix s : string) : bool :=
  String.eqb suffix s
  || match s with
     | EmptyString => false
     | String _ s' => endswith suffix s'
     end.

(** [s.split(':')[0]] *)
Fixpoint before_colon (s : string) : string :=
  match s with
  | EmptyString => EmptyString
  | String c s' =>
      if Ascii.eqb c ":"%char then EmptyString else String c (before_colon s')
  end.

(** [x in items] for a list of strings. *)
Definition mem (x : string) (items : list string) : bool :=
  existsb (String.eqb x) items.

(** [sorted(set(items))]: increasing by code points, each string once. *)
Fixpoint insert_sorted (x : string) (sorted : list string) : list string :=
  match sorted with
  | [] => [x]
  | y :: rest =>
      match String.compare x y with
      | Lt => x :: sorted
      | Eq => sorted
      | Gt => y :: insert_sorted x rest
      end
  end.

Definition sorted_set (items : list string) : list string :=
  fold_left (fun acc x => insert_sorted x acc) items [].

(** [int(digits)] for a run of decimal digits. *)
Fixpoint int_from (acc : N) (digits : string) : N :=
  match digits with
  | EmptyString => acc
  | String c s' => int_from (acc * 10 + (N_of_ascii c - 48)) s'
  end.

Definition int (digits : string) : N := int_from 0 digits.

(** [str(n)] *)
Definition of_N (n : N) : string := NilEmpty.string_of_uint (N.to_uint n).

End Str.

(** ** The regular expressions of the scraper

    Every pattern of [main.py] matches at least one character and is
    deterministic from a given start, so a pattern is given by what it
    matches at the head of a string: the length of the match and the value
    [findall] reports for it (the one group, or the whole match). *)

Module Re.

Section Scan.
Context {R : Type} (match_at : string -> option (nat * R)).

(** Left-to-right, non-overlapping matches; [skip] characters still belong
    to the match found last. *)
Fixpoint findall_from (skip : nat) (s : string) : list R :=
  match s with
  | EmptyString => []
  | String _ s' =>
      match skip with
      | S k => findall_from k s'
      | O =>
          match match_at s with
          | Some (n, r) => r :: findall_from (Nat.pred n) s'
          | None => findall_from 0 s'
          end
      end
  end.

Definition findall : string -> list R := findall_from 0.

(** [pattern.search(s)]: the leftmost match. *)
Fixpoint search (s : string) : option R :=
  match match_at s with
  | Some (_, r) => Some r
  | None =>
      match s with
      | EmptyString => None
      | String _ s' => search s'
      end
  end.

(** [re.sub(pattern, repl, s)] with a literal replacement. *)
Fixpoint sub_from (repl : string) (skip : nat) (s : string) : string :=
  match s with
  | EmptyString => EmptyString
  | String c s' =>
      match skip with
      | S k => sub_from repl k s'
      | O =>
          match match_at s with
          | Some (n, _) => (repl ++ sub_from repl (Nat.pred n) s')%string
          | None => String c (sub_from repl 0 s')
          end
      end
  end.

Definition sub (repl : string) : string -> string := sub_from repl 0.

(** No match starts inside [pre] when [rest] follows it. *)
Definition none_within (pre rest : string) : Prop :=
  forall a b, pre = (a ++ b)%string -> b <> EmptyString ->
              match_at (b ++ rest)%string = None.

(** The same as a test: no suffix of [pre], followed by [rest], has a match
    at its head. *)
Fixpoint no_match_in (pre rest : string) : bool :=
  match pre with
  | EmptyString => true
  | String c pre' =>
      match match_at (pre ++ rest)%string with
      | Some _ => false
      | None => no_match_in pre' rest
      end
  end.
End Scan.

(** [[^\d.,]]: what the price cleaner deletes is everything but these. *)
Definition price_char (c : ascii) : bool :=
  Str.isdigit c || Ascii.eqb c "."%char || Ascii.eqb c ","%char.

(** [re.sub(r'[^\d.,]', '', s)] *)
Definition sub_non_price (s : string) : string := Str.filter price_char s.

(** [re.sub(r'^SKU:?\s*', '', s, flags=re.IGNORECASE)] *)
Definition sub_sku_label (s : string) : string :=
  match Str.drop_prefix_nocase "sku" s with
  | None => s
  | Some r =>
      match r with
      | String ":"%char r' => Str.lstrip r'
      | _ => Str.lstrip r
      end
  end.

(** [(\$\d+(?:\.\d{2})?)] at the head of [s]. *)
Definition price_at (s : string) : option (nat * string) :=
  match s with
  | String "$"%char s1 =>
      let '(ds, rest) := Str.span Str.isdigit s1 in
      match ds with
      | EmptyString => None
      | _ =>
          let m :=
            match rest with
            | String "."%char (String a (String b _)) =>
                if Str.isdigit a && Str.isdigit b
                then (String "$" ds ++ String "." (String a (String b EmptyString)))%string
                else String "$" ds
            | _ => String "$" ds
            end in
          Some (String.length m, m)
      end
  | _ => None
  end.

Definition sku_token_char (c : ascii) : bool :=
  Str.isalpha_ascii c || Str.isdigit c || Ascii.eqb c "-"%char.

(** [SKU:?\s*([A-Za-z0-9-]+)] at the head of [s]; the value is the group. *)
Definition sku_at (s : string) : option (nat * string) :=
  match Str.drop_prefix "SKU" s with
  | None => None
  | Some r =>
      let '(colon, r1) :=
        match r with
        | String ":"%char r' => (1, r')
        | _ => (0, r)
        end in
      let '(ws, r2) := Str.span Str.isspace r1 in
      let '(tok, _) := Str.span sku_token_char r2 in
      match tok with
      | EmptyString => None
      | _ => Some (3 + colon + String.length ws + String.length tok, tok)
      end
  end.

(** [page=(\d+)] at the head of [s]; the value is the group. *)
Definition page_at (s : string) : option (nat * string) :=
  match Str.drop_prefix "page=" s with
  | None => None
  | Some r =>
      let '(ds, _) := Str.span Str.isdigit r in
      match ds with
      | EmptyString => None
      | _ => Some (5 + String.length ds, ds)
      end
  end.

End Re.

(** ** Dictionaries and record values *)

Definition dict (V : Type) : Type := list (string * V).

Module Dict.
Section Ops.
Context {V : Type}.

(** [d.get(k)] *)
Fixpoint get (d : dict V) (k : string) : option V :=
  match d with
  | [] => None
  | (k', v) :: d' => if String.eqb k' k then Some v else get d' k
  end.

(** [k in d] *)
Definition mem (d : dict V) (k : string) : bool :=
  match get d k with Some _ => true | None => false end.

(** [d[k] = v] *)
Fixpoint set (d : dict V) (k : string) (v : V) : dict V :=
  match d with
  | [] => [(k, v)]
  | (k', v') :: d' =>
      if String.eqb k' k then (k', v) :: d' else (k', v') :: set d' k v
  end.

Definition keys (d : dict V) : list string := map fst d.
End Ops.
End Dict.

(** What a product record holds under a key: a string, the list of image
    addresses, or the specification mapping. *)
Inductive value : Type :=
| VStr (s : string)
| VList (items : list string)
| VDict (entries : dict string).

Definition Product : Type := dict value.

Definition NA : value := VStr "N/A".

(** ** Parsed documents, as BeautifulSoup shows them *)

Module Bs4.

(** An element: its tag name, [.text], [.get(attribute)] and
    [.select(selector)] below it (matches in document order). *)
#[warnings="-register-all"]
Inductive Tag : Type := mkTag {
  name : string;
  text : string;
  get : string -> option string;
  select : string -> list Tag
}.

(** A document: [soup.select(selector)], [soup.find_all(tag name)],
    [soup.find('meta', attrs={'name': n})] and [str(soup)]. *)
Record Soup : Type := mkSoup {
  soup_select : string -> list Tag;
  find_all : string -> list Tag;
  find_meta : string -> option Tag;
  to_str : string
}.

(** [select_one] is the first element [select] reports. *)
Definition select_one (t : Tag) (selector : string) : option Tag :=
  hd_error (select t selector).

Definition soup_select_one (soup : Soup) (selector : string) : option Tag :=
  hd_error (soup_select soup selector).

End Bs4.

(** ** Python truth of an optional string: neither [None] nor empty *)

Definition truthy (o : option string) : option string :=
  match o with
  | Some (String c s) => Some (String c s)
  | _ => None
  end.

(** [a or b] on optional values that are true whenever present (elements). *)
Definition or_else {A : Type} (a b : option A) : option A :=
  match a with Some _ => a | None => b end.

(** [a or b] on optional strings. *)
Definition str_or (a b : option string) : option string :=
  match truthy a with Some s => Some s | None => b end.

(** [[] -> None]: the test [if elems:] on a list. *)
Definition nonempty {A : Type} (l : list A) : option (list A) :=
  match l with [] => None | _ => Some l end.

(** ** The selector loop

    [for selector in selectors: x = query(selector); if x: ...; break].
    The loop is run for its hit, the selector and what it found, together
    with the selectors it consulted on the way. *)

Section SelectorLoop.
Context {A : Type} (query : string -> option A).

Fixpoint first_match (selectors : list string)
  : list string * option (string * A) :=
  match selectors with
  | [] => ([], None)
  | s :: rest =>
      match query s with
      | Some a => ([s], Some (s, a))
      | None => let '(seen, hit) := first_match rest in (s :: seen, hit)
      end
  end.

Definition consulted (selectors : list string) : list string :=
  fst (first_match selectors).

Definition hit (selectors : list string) : option A :=
  option_map snd (snd (first_match selectors)).
End SelectorLoop.


(** A double quote, and a word between double quotes, for the selectors
    that carry an attribute test. *)
Definition dquote : string := String (ascii_of_nat 34) EmptyString.
Definition quoted (s : string) : string := (dquote ++ s ++ dquote)%string.

(** ** Product pages: [parse_product_page] after the fetch *)

Module Fields.
Import Bs4.

Definition title_selectors : list string :=
  [ "h1.product-title"; "h1.title"; "h1.product-single__title";
    ("h1[itemprop=" ++ quoted "name" ++ "]")%string;
    ".product-title h1"; "#product-title" ].

Definition price_selectors : list string :=
  [ "span.price-new"; ".price"; ".product-price";
    ("span[itemprop=" ++ quoted "price" ++ "]")%string;
    ".product-single__price"; "#product-price";
    "div.price-box span.regular-price" ].

Definition original_price_selectors : list string :=
  [ "span.price-old"; ".compare-price"; ".product-single__price--compare";
    ".was-price"; "span.old-price" ].

Definition sku_selectors : list string :=
  [ "div.sku"; ".product-sku";
    ("span[itemprop=" ++ quoted "sku" ++ "]")%string;
    ".product-single__sku" ].

Definition description_selectors : list string :=
  [ "div.product-description"; ".description"; "#product-description";
    ("div[itemprop=" ++ quoted "description" ++ "]")%string;
    ".product-single__description"; ".product-description-container" ].

Definition image_selectors : list string :=
  [ "div.product-image-main img"; ".product-featured-image img";
    ".product-single__media img";
    ("img[itemprop=" ++ quoted "image" ++ "]")%string;
    ".product-single__photo img"; "div.product-img-box img";
    "#product-featured-image" ].

Definition spec_selectors : list string :=
  [ "div.product-specification div.row"; ".product-details table tr";
    ".product-specs table tr"; "table.product-attributes tr";
    ".product-features li" ].

(** No selector of the list has an element on the page. *)
Definition no_element (soup : Soup) (selectors : list string) : Prop :=
  forall s, In s selectors -> soup_select_one soup s = None.

(** No selector of the list has any match on the page. *)
Definition no_matches (soup : Soup) (selectors : list string) : Prop :=
  forall s, In s selectors -> soup_select soup s = [].

(** [elem.text.strip()] *)
Definition stripped (e : Tag) : string := Str.strip (text e).

(** The element texts as each field stores them. *)
Definition title_text (e : Tag) : string := stripped e.
Definition price_text (e : Tag) : string := Re.sub_non_price (stripped e).
Definition sku_text (e : Tag) : string := Re.sub_sku_label (stripped e).
Definition description_text (e : Tag) : string := stripped e.

(** [img.get('src') or img.get('data-src')], kept when true. *)
Definition img_url (img : Tag) : option string :=
  truthy (str_or (get img "src") (get img "data-src")).

Section WithUrljoin.
Variable urljoin : string -> string -> string.
Variable base_url : string.

(** Lines 59-74. *)
Definition title_field (soup : Soup) (product : Product) : Product :=
  let product :=
    match hit (soup_select_one soup) title_selectors with
    | Some e => Dict.set product "title" (VStr (title_text e))
    | None => product
    end in
  if Dict.mem product "title" then product
  else
    match find_all soup "h1" with
    | e :: _ => Dict.set product "title" (VStr (stripped e))
    | [] => Dict.set product "title" NA
    end.

(** Lines 87-106. *)
Definition price_field (soup : Soup) (product : Product) : Product :=
  let product :=
    match hit (soup_select_one soup) price_selectors with
    | Some e => Dict.set product "price" (VStr (price_text e))
    | None => product
    end in
  if Dict.mem product "price" then product
  else
    match Re.findall Re.price_at (to_str soup) with
    | m :: _ => Dict.set product "price" (VStr m)
    | [] => Dict.set product "price" NA
    end.

(** Lines 117-128. *)
Definition original_price_field (soup : Soup) (product : Product) : Product :=
  let product :=
    match hit (soup_select_one soup) original_price_selectors with
    | Some e => Dict.set product "original_price" (VStr (price_text e))
    | None => product
    end in
  if Dict.mem product "original_price" then product
  else
    Dict.set product "original_price"
      (match Dict.get product "price" with Some v => v | None => NA end).

(** Lines 138-157. *)
Definition sku_field (soup : Soup) (product : Product) : Product :=
  let product :=
    match hit (soup_select_one soup) sku_selectors with
    | Some e => Dict.set product "sku" (VStr (sku_text e))
    | None => product
    end in
  if Dict.mem product "sku" then product
  else
    match Re.findall Re.sku_at (to_str soup) with
    | m :: _ => Dict.set product "sku" (VStr m)
    | [] => Dict.set product "sku" NA
    end.

(** Lines 169-184. *)
Definition description_field (soup : Soup) (product : Product) : Product :=
  let product :=
    match hit (soup_select_one soup) description_selectors with
    | Some e => Dict.set product "description" (VStr (description_text e))
    | None => product
    end in
  if Dict.mem product "description" then product
  else
    match find_meta soup "description" with
    | Some meta_desc =>
        match truthy (get meta_desc "content") with
        | Some content => Dict.set product "description" (VStr content)
        | None => Dict.set product "description" NA
        end
    | None => Dict.set product "description" NA
    end.

(** The inner loop of lines 202-206: the addresses of the elements that
    have one, resolved, in document order. *)
Fixpoint image_urls (image_elems : list Tag) : list string :=
  match image_elems with
  | [] => []
  | img :: rest =>
      match img_url img with
      | Some u => urljoin base_url u :: image_urls rest
      | None => image_urls rest
      end
  end.

(** Lines 213-217. *)
Fixpoint product_image_urls (all_images : list Tag) : list string :=
  match all_images with
  | [] => []
  | img :: rest =>
      match img_url img with
      | Some u =>
          if Str.contains "product" (Str.lower u)
             || Str.contains "item" (Str.lower u)
          then urljoin base_url u :: product_image_urls rest
          else product_image_urls rest
      | None => product_image_urls rest
      end
  end.

(** The list under ['images'] once line 208 is passed. *)
Definition located_images (soup : Soup) : list string :=
  match hit (fun s => nonempty (soup_select soup s)) image_selectors with
  | Some image_elems => image_urls image_elems
  | None => []
  end.

(** Lines 197-218.  The list is created empty, filled by the loop and, if
    still empty, by the scan of every image of the page. *)
Definition images_field (soup : Soup) (product : Product) : Product :=
  let images := located_images soup in
  let images :=
    match images with
    | [] => product_image_urls (find_all soup "img")
    | _ => images
    end in
  Dict.set product "images" (VList images).

(** Line 234 and line 235. *)
Definition name_elem (spec : Tag) : option Tag :=
  or_else (select_one spec "div.col-sm-4")
    (or_else (select_one spec "th")
       (or_else (select_one spec "td:first-child")
          (select_one spec "strong"))).

Definition value_elem (spec : Tag) : option Tag :=
  or_else (select_one spec "div.col-sm-8")
    (or_else (select_one spec "td:last-child") (select_one spec "span")).

(** Lines 233-240. *)
Fixpoint spec_rows (spec_elems : list Tag) (specs : dict string) : dict string :=
  match spec_elems with
  | [] => specs
  | spec :: rest =>
      match name_elem spec, value_elem spec with
      | Some n, Some v => spec_rows rest (Dict.set specs (stripped n) (stripped v))
      | _, _ => spec_rows rest specs
      end
  end.

(** Lines 221-245. *)
Definition specifications_field (soup : Soup) (product : Product) : Product :=
  let specs :=
    match hit (fun s => nonempty (soup_select soup s)) spec_selectors with
    | Some spec_elems => spec_rows spec_elems []
    | None => []
    end in
  Dict.set product "specifications" (VDict specs).

(** The value each key ends up with, read off the field's code. *)
Definition title_value (soup : Soup) : value :=
  match hit (soup_select_one soup) title_selectors with
  | Some e => VStr (title_text e)
  | None =>
      match find_all soup "h1" with
      | e :: _ => VStr (stripped e)
      | [] => NA
      end
  end.

Definition price_value (soup : Soup) : value :=
  match hit (soup_select_one soup) price_selectors with
  | Some e => VStr (price_text e)
  | None =>
      match Re.findall Re.price_at (to_str soup) with
      | m :: _ => VStr m
      | [] => NA
      end
  end.

Definition original_price_value (soup : Soup) : value :=
  match hit (soup_select_one soup) original_price_selectors with
  | Some e => VStr (price_text e)
  | None => price_value soup
  end.

Definition sku_value (soup : Soup) : value :=
  match hit (soup_select_one soup) sku_selectors with
  | Some e => VStr (sku_text e)
  | None =>
      match Re.findall Re.sku_at (to_str soup) with
      | m :: _ => VStr m
      | [] => NA
      end
  end.

Definition description_value (soup : Soup) : value :=
  match hit (soup_select_one soup) description_selectors with
  | Some e => VStr (description_text e)
  | None =>
      match find_meta soup "description" with
      | Some meta_desc =>
          match truthy (get meta_desc "content") with
          | Some content => VStr content
          | None => NA
          end
      | None => NA
      end
  end.

Definition images_value (soup : Soup) : list string :=
  match located_images soup with
  | [] => product_image_urls (find_all soup "img")
  | images => images
  end.

Definition specifications_value (soup : Soup) : dict string :=
  match hit (fun s => nonempty (soup_select soup s)) spec_selectors with
  | Some spec_elems => spec_rows spec_elems []
  | None => []
  end.

(** Lines 47-248: the record built from a parsed page. *)
Definition product_of (soup : Soup) (product_url : string) : Product :=
  let product := [] in
  let product := title_field soup product in
  let product := price_field soup product in
  let product := original_price_field soup product in
  let product := sku_field soup product in
  let product := description_field soup product in
  let product := images_field soup product in
  let product := specifications_field soup product in
  Dict.set product "url" (VStr product_url).

End WithUrljoin.
End Fields.

(** Order-preserving de-duplication by exact match, as the design states
    it: each address once, at the place of its first occurrence. *)
Fixpoint first_occurrences (urls : list string) : list string :=
  match urls with
  | [] => []
  | u :: rest =>
      u :: List.filter (fun v => negb (String.eqb u v)) (first_occurrences rest)
  end.

(** ** Listing pages: the links [scrape_category_page] collects *)

Module Listing.
Import Bs4.

Definition product_selectors : list string :=
  [ "div.product-layout div.product-thumb"; ".product-grid .product-card";
    ".collection-grid .grid-product"; ".products-grid .product-item";
    ".product-list .product"; "ul.products li.product";
    ".grid-product__content"; "article[data-product]"; ".product-item";
    ".grid__item"; ".product-card" ].

Definition link_selectors : list string :=
  [ "div.caption h4 a"; "a.product-title"; "h2.product-title a";
    "a.grid-product__link"; ".product-name a"; "a.product-link"; "h2 a";
    "a.product-item-link"; ".product-card__title a";
    ("a[href*=" ++ quoted "product" ++ "]")%string; "a" ].

(** An element together with its [href], when it has a true one. *)
Definition with_href (e : option Tag) : option string :=
  match e with
  | Some e => truthy (get e "href")
  | None => None
  end.

(** Lines 277-288: the cards of the first selector that has some, else the
    anchors whose address mentions a product. *)
Definition product_cards (soup : Soup) : list Tag :=
  match hit (fun s => nonempty (soup_select soup s)) product_selectors with
  | Some cards => cards
  | None =>
      match soup_select soup ("a[href*=" ++ quoted "product" ++ "]")%string with
      | [] => soup_select soup ("a[href*=" ++ quoted "/products/" ++ "]")%string
      | cards => cards
      end
  end.

(** Lines 293-317: the [href] taken from a card.  When the inner loop ends
    without a break, [link_elem] is what the last selector gave, which has no
    true [href], and line 317 rejects it. *)
Definition card_href (card : Tag) : option string :=
  match (if String.eqb (name card) "a" then truthy (get card "href") else None) with
  | Some href => Some href
  | None => hit (fun s => with_href (select_one card s)) link_selectors
  end.

Section WithUrljoin.
Variable urljoin : string -> string -> string.
Variable base_url : string.

(** Lines 319-320 and 331-332. *)
Definition add_link (product_links : list string) (full_url : string)
  : list string :=
  if Str.mem full_url product_links then product_links
  else product_links ++ [full_url].

(** Lines 291-320. *)
Fixpoint card_links (cards : list Tag) (product_links : list string)
  : list string :=
  match cards with
  | [] => product_links
  | card :: rest =>
      match card_href card with
      | Some href => card_links rest (add_link product_links (urljoin base_url href))
      | None => card_links rest product_links
      end
  end.

(** Lines 326-332. *)
Fixpoint anchor_links (all_links : list Tag) (product_links : list string)
  : list string :=
  match all_links with
  | [] => product_links
  | link :: rest =>
      match truthy (get link "href") with
      | Some href =>
          if Str.contains "product" href || Str.contains "/p/" href
          then anchor_links rest (add_link product_links (urljoin base_url href))
          else anchor_links rest product_links
      | None => anchor_links rest product_links
      end
  end.

(** The addresses the cards give, one per card that has a link, in the order
    of the cards and with their repetitions. *)
Fixpoint card_urls (cards : list Tag) : list string :=
  match cards with
  | [] => []
  | card :: rest =>
      match card_href card with
      | Some href => urljoin base_url href :: card_urls rest
      | None => card_urls rest
      end
  end.

(** The same for the anchors of the last resort. *)
Fixpoint anchor_urls (all_links : list Tag) : list string :=
  match all_links with
  | [] => []
  | link :: rest =>
      match truthy (get link "href") with
      | Some href =>
          if Str.contains "product" href || Str.contains "/p/" href
          then urljoin base_url href :: anchor_urls rest
          else anchor_urls rest
      | None => anchor_urls rest
      end
  end.

(** [product_links] as line 336 reports it. *)
Definition product_links (soup : Soup) : list string :=
  match card_links (product_cards soup) [] with
  | [] => anchor_links (find_all soup "a") []
  | links => links
  end.

End WithUrljoin.
End Listing.

(** ** Pagination: [get_next_page_url] *)

Module Pagination.
Import Bs4.

Definition contains_next : string := (":contains(" ++ quoted "Next" ++ ")")%string.

Definition next_link_selectors : list string :=
  [ "ul.pagination li.active + li a"; ".pagination .next a";
    "a.pagination__next"; ("a[rel=" ++ quoted "next" ++ "]")%string;
    ".next-page a"; ".pagination-next a"; "a.next"; "a.next-page";
    ".pagination .next"; (".pagination a" ++ contains_next)%string;
    ("a" ++ contains_next)%string ].

(** Lines 368-378: the element one selector proposes. *)
Definition next_link (soup : Soup) (selector : string) : option Tag :=
  if Str.endswith contains_next selector then
    let selector_name := Str.before_colon selector in
    find (fun el => String.eqb (Str.lower (Str.strip (text el))) "next")
         (soup_select soup selector_name)
  else soup_select_one soup selector.

(** Lines 386-395: the numbered-page rule. *)
Definition numbered_next (url : string) : option string :=
  match Re.search Re.page_at url with
  | Some current_page =>
      let next_page := (Str.int current_page + 1)%N in
      Some (Re.sub Re.page_at ("page=" ++ Str.of_N next_page)%string url)
  | None => None
  end.

Section WithUrljoin.
Variable urljoin : string -> string -> string.
Variable base_url : string.

(** Lines 367-395, on the parsed page. *)
Definition next_page_url (url : string) (soup : Soup) : option string :=
  match hit (fun s => Listing.with_href (next_link soup s)) next_link_selectors with
  | Some href => Some (urljoin base_url href)
  | None => numbered_next url
  end.
End WithUrljoin.
End Pagination.

(** ** The scraper: state, fetches, crawl and exports *)

(** What an export leaves in a file: the value handed to [json.dump], or the
    header and the rows handed to [csv.DictWriter], cell by cell. *)
Inductive file : Type :=
| JsonFile (records : list Product)
| CsvFile (fieldnames : list string) (rows : list (list value)).

(** [all_products] is the attribute of the scraper object, set to the empty
    list by [__init__]; [requests] lists the addresses given to
    [requests.get], oldest first; [stdout] the lines the exporters print;
    [files] the files written. *)
Record state : Type := mkState {
  all_products : list Product;
  requests : list string;
  stdout : list string;
  files : dict file
}.

(** A scraper straight out of [__init__], nothing requested or written yet. *)
Definition fresh : state := mkState [] [] [] [].

Definition M (A : Type) : Type := state -> A * state.

Definition ret {A : Type} (a : A) : M A := fun st => (a, st).

Definition bind {A B : Type} (m : M A) (k : A -> M B) : M B :=
  fun st => let '(a, st') := m st in k a st'.

Notation "x <- m ;; k" := (bind m (fun x => k))
  (at level 61, m at next level, right associativity).

Definition result {A : Type} (m : M A) (st : state) : A := fst (m st).
Definition after {A : Type} (m : M A) (st : state) : state := snd (m st).

Module Scraper.
Import Bs4.

Section Site.
(** [requests.get(url, headers=...)] followed by [raise_for_status] and
    [.text]: the body, or [None] when the request raises. *)
Variable requests_get : string -> option string.
(** [BeautifulSoup(html, 'html.parser')] *)
Variable BeautifulSoup : string -> Soup.
Variable urljoin : string -> string -> string.
(** [self.base_url] *)
Variable base_url : string.

Definition get_page_html (url : string) : M (option string) :=
  fun st =>
    (requests_get url,
     mkState (all_products st) (requests st ++ [url]) (stdout st) (files st)).

Definition parse_product_page (product_url : string) : M (option Product) :=
  html <- get_page_html product_url ;;
  match truthy html with
  | None => ret None
  | Some html =>
      ret (Some (Fields.product_of urljoin base_url (BeautifulSoup html) product_url))
  end.

(** A record the parser built. *)
Definition parsed (product : Product) : Prop :=
  exists soup url, product = Fields.product_of urljoin base_url soup url.

(** Lines 338-344; [if product:] holds for a record with a key in it. *)
Fixpoint parse_links (product_links : list string) (products : list Product)
  : M (list Product) :=
  match product_links with
  | [] => ret products
  | link :: rest =>
      product <- parse_product_page link ;;
      match product with
      | Some (entry :: entries) => parse_links rest (products ++ [entry :: entries])
      | _ => parse_links rest products
      end
  end.

Definition scrape_category_page (url : string) : M (list Product) :=
  html <- get_page_html url ;;
  match truthy html with
  | None => ret []
  | Some html =>
      parse_links (Listing.product_links urljoin base_url (BeautifulSoup html)) []
  end.

Definition get_next_page_url (url html : string) : option string :=
  Pagination.next_page_url urljoin base_url url (BeautifulSoup html).

(** [self.all_products.extend(products)] *)
Definition extend (products : list Product) : M unit :=
  fun st =>
    (tt, mkState (all_products st ++ products) (requests st) (stdout st) (files st)).

(** The [while] loop of lines 402-424; [remaining] is
    [max_pages - page_count], the number of pages it may still visit. *)
Fixpoint pages (remaining : nat) (current_url : option string) : M unit :=
  match remaining, truthy current_url with
  | S remaining', Some url =>
      html <- get_page_html url ;;
      match truthy html with
      | None => ret tt
      | Some html =>
          products <- scrape_category_page url ;;
          _ <- extend products ;;
          let next_url := get_next_page_url url html in
          match next_url with
          | Some next =>
              if String.eqb next url then ret tt
              else pages remaining' next_url
          | None => pages remaining' next_url
          end
      end
  | _, _ => ret tt
  end.

Definition scrape_multiple_pages (start_url : string) (max_pages : Z)
  : M (list Product) :=
  _ <- pages (Z.to_nat max_pages) (Some start_url) ;;
  fun st => (all_products st, st).

(** The addresses [scrape_category_page] asks for: the listing page, then
    every link collected from it. *)
Definition scan_requests (url : string) : list string :=
  url :: match truthy (requests_get url) with
         | Some html => Listing.product_links urljoin base_url (BeautifulSoup html)
         | None => []
         end.

(** The addresses one turn of the loop asks for: the page (line 404) and,
    when that gave a body, what the scan of the page asks for. *)
Definition visit_requests (url : string) : list string :=
  url :: match truthy (requests_get url) with
         | Some _ => scan_requests url
         | None => []
         end.

(** The records [scrape_category_page] returns for a listing address (they
    do not depend on the state it is called in). *)
Definition page_records (url : string) : list Product :=
  result (scrape_category_page url) fresh.

(** Whether the page at an address can be fetched with a body. *)
Definition fetched (url : string) : bool :=
  match truthy (requests_get url) with Some _ => true | None => false end.

End Site.

(** [m] returns [a] and leaves [products] more records and [log] more
    requests behind, whatever the state it starts in. *)
Definition adds {A : Type} (m : M A) (a : A) (products : list Product)
  (log : list string) : Prop :=
  forall st,
    m st = (a, mkState (all_products st ++ products) (requests st ++ log)
                 (stdout st) (files st)).

(** [product.get('specifications', {})] as a mapping: [.keys()] and
    [.items()] raise on a string or a list. *)
Definition specifications_of (product : Product) : option (dict string) :=
  match Dict.get product "specifications" with
  | None => Some []
  | Some (VDict entries) => Some entries
  | Some _ => None
  end.

(** A record whose specifications, if it has the key, are a mapping. *)
Definition well_formed (product : Product) : Prop :=
  exists entries, specifications_of product = Some entries.

(** *** Exports *)

Definition print (line : string) : M unit :=
  fun st =>
    (tt, mkState (all_products st) (requests st) (stdout st ++ [line]) (files st)).

(** [with open(filename, 'w') as f: ...] with the content written. *)
Definition write (filename : string) (content : file) : M unit :=
  fun st =>
    (tt, mkState (all_products st) (requests st) (stdout st)
           (Dict.set (files st) filename content)).

Definition saved_line (n : nat) (filename : string) : string :=
  ("Saved " ++ Str.of_N (N.of_nat n) ++ " products to " ++ filename)%string.

Definition save_to_json (filename : string) : M unit :=
  fun st =>
    (_ <- write filename (JsonFile (all_products st)) ;;
     print (saved_line (List.length (all_products st)) filename)) st.

(** Lines 444-447; [None] when a record makes [.keys()] raise. *)
Fixpoint spec_fields (products : list Product) : option (list string) :=
  match products with
  | [] => Some []
  | product :: rest =>
      match specifications_of product, spec_fields rest with
      | Some entries, Some fields =>
          Some (map (fun spec => ("spec_" ++ spec)%string) (Dict.keys entries) ++ fields)
      | _, _ => None
      end
  end.

(** What [sep.join] iterates over. *)
Definition iterate (v : value) : list string :=
  match v with
  | VStr s => Str.chars s
  | VList items => items
  | VDict entries => Dict.keys entries
  end.

Definition get_or_empty (d : dict value) (k : string) : value :=
  match Dict.get d k with Some v => v | None => VStr EmptyString end.

(** Lines 457-469: the row dictionary of one record. *)
Definition row_of (product : Product) (entries : dict string) : dict value :=
  let row :=
    [ ("title", get_or_empty product "title");
      ("price", get_or_empty product "price");
      ("original_price", get_or_empty product "original_price");
      ("sku", get_or_empty product "sku");
      ("description", get_or_empty product "description");
      ("url", get_or_empty product "url");
      ("images",
       VStr (Str.join "; "
               (match Dict.get product "images" with
                | Some v => iterate v
                | None => []
                end))) ] in
  fold_left
    (fun row '(spec_name, spec_value) =>
       Dict.set row ("spec_" ++ spec_name)%string (VStr spec_value))
    entries row.

(** [writer.writerow(row)]: one cell per field name, empty when absent. *)
Definition cells (fieldnames : list string) (row : dict value) : list value :=
  map (get_or_empty row) fieldnames.

Fixpoint rows (fieldnames : list string) (products : list Product)
  : option (list (list value)) :=
  match products with
  | [] => Some []
  | product :: rest =>
      match specifications_of product, rows fieldnames rest with
      | Some entries, Some rs => Some (cells fieldnames (row_of product entries) :: rs)
      | _, _ => None
      end
  end.

Definition fieldnames_of (fields : list string) : list string :=
  ["title"; "price"; "original_price"; "sku"; "description"; "url"]
  ++ Str.sorted_set fields ++ ["images"].

(** [None] stands for the [AttributeError] of a record whose
    specifications are not a mapping; it is raised before the file is
    opened. *)
Definition save_to_csv (filename : string) (st : state) : option state :=
  match all_products st with
  | [] => Some (after (print "No products to save") st)
  | _ =>
      match spec_fields (all_products st) with
      | None => None
      | Some fields =>
          let fieldnames := fieldnames_of fields in
          match rows fieldnames (all_products st) with
          | None => None
          | Some rs =>
              Some (after (_ <- write filename (CsvFile fieldnames rs) ;;
                           print (saved_line (List.length (all_products st)) filename)) st)
          end
      end
  end.

(** The columns every CSV file starts with (line 441). *)
Definition leading_columns : list string :=
  ["title"; "price"; "original_price"; "sku"; "description"; "url"].

(** *** The entry point (lines 476-487)

    A new scraper with the default base address crawls at most four pages
    from the fixed start address, then exports to the two default files.
    [None] stands for an exception that leaves the program. *)
Definition default_base_url : string := "https://www.jenniferfurniture.com/".

Definition start_url : string :=
  "https://www.jenniferfurniture.com/collections/modern-heritage-mattresses.html".

Definition main (requests_get : string -> option string)
  (BeautifulSoup : string -> Soup) (urljoin : string -> string -> string)
  : option state :=
  let crawled :=
    after (scrape_multiple_pages requests_get BeautifulSoup urljoin
             default_base_url start_url 4) fresh in
  save_to_csv "jennifer_products.csv"
    (after (save_to_json "jennifer_products.json") crawled).

End Scraper.

(** ** Sample pages and a sample site

    Small documents given by the answers they make to the queries of the
    scraper; a selector that is not listed matches nothing. *)

Module Sample.
Import Bs4.

Definition lookup {A : Type} (table : dict A) (default : A) (k : string) : A :=
  match Dict.get table k with Some a => a | None => default end.

Definition element (name text : string) (attrs : dict string)
  (below : dict (list Tag)) : Tag :=
  mkTag name text (Dict.get attrs) (lookup below []).

Definition document (selected named : dict (list Tag)) (metas : dict Tag)
  (source : string) : Soup :=
  mkSoup (lookup selected []) (lookup named []) (Dict.get metas) source.

Definition base_url : string := "https://www.jenniferfurniture.com/".

(** [urljoin] on the two shapes the samples use: an absolute address is kept,
    a bare relative path is appended to a base that ends in a slash. *)
Definition urljoin (base url : string) : string :=
  if prefix "https://" url then url else (base ++ url)%string.

Definition attr (k v : string) : string := (" " ++ k ++ "=" ++ quoted v)%string.

(** *** A product page on which the first selector of every field matches *)

Definition alba_url : string := "https://www.jenniferfurniture.com/p/alba.html".

Definition alba_html : string :=
  ("<h1" ++ attr "class" "product-title" ++ "> Alba Sofa </h1>"
   ++ "<span" ++ attr "class" "price-new" ++ ">$1,299.00</span>"
   ++ "<span" ++ attr "class" "price-old" ++ ">$1,499.00</span>"
   ++ "<div" ++ attr "class" "sku" ++ ">SKU: AL-100</div>"
   ++ "<div" ++ attr "class" "product-description" ++ ">Three seats.</div>"
   ++ "<div" ++ attr "class" "product-image-main" ++ "><img"
   ++ attr "src" "https://www.jenniferfurniture.com/img/alba.jpg" ++ "/></div>"
   ++ "<div" ++ attr "class" "product-specification" ++ "><div"
   ++ attr "class" "row" ++ "><div" ++ attr "class" "col-sm-4" ++ ">Material</div>"
   ++ "<div" ++ attr "class" "col-sm-8" ++ ">Oak</div></div></div>")%string.

Definition alba_h1 : Tag :=
  element "h1" " Alba Sofa " [("class", "product-title")] [].
Definition alba_price : Tag :=
  element "span" "$1,299.00" [("class", "price-new")] [].
Definition alba_old_price : Tag :=
  element "span" "$1,499.00" [("class", "price-old")] [].
Definition alba_sku : Tag := element "div" "SKU: AL-100" [("class", "sku")] [].
Definition alba_description : Tag :=
  element "div" "Three seats." [("class", "product-description")] [].
Definition alba_img : Tag :=
  element "img" EmptyString
    [("src", "https://www.jenniferfurniture.com/img/alba.jpg")] [].
Definition alba_name_cell : Tag :=
  element "div" "Material" [("class", "col-sm-4")] [].
Definition alba_value_cell : Tag :=
  element "div" "Oak" [("class", "col-sm-8")] [].
Definition alba_row : Tag :=
  element "div" "MaterialOak" [("class", "row")]
    [("div.col-sm-4", [alba_name_cell]); ("div.col-sm-8", [alba_value_cell])].

Definition alba : Soup :=
  document
    [ ("h1.product-title", [alba_h1]);
      ("span.price-new", [alba_price]);
      ("span.price-old", [alba_old_price]);
      ("div.sku", [alba_sku]);
      ("div.product-description", [alba_description]);
      ("div.product-image-main img", [alba_img]);
      ("div.product-specification div.row", [alba_row]) ]
    [ ("h1", [alba_h1]); ("img", [alba_img]) ]
    []
    alba_html.

(** *** A product page with a title and a price *)

Definition cleo_url : string := "https://www.jenniferfurniture.com/p/cleo.html".

Definition cleo_html : string :=
  ("<h1" ++ attr "class" "product-title" ++ ">Cleo Chair</h1>"
   ++ "<span" ++ attr "class" "price-new" ++ ">$349</span>")%string.

Definition cleo_h1 : Tag :=
  element "h1" "Cleo Chair" [("class", "product-title")] [].
Definition cleo_price : Tag :=
  element "span" "$349" [("class", "price-new")] [].

Definition cleo : Soup :=
  document
    [ ("h1.product-title", [cleo_h1]); ("span.price-new", [cleo_price]) ]
    [ ("h1", [cleo_h1]) ]
    []
    cleo_html.

(** *** A product page with a price and nothing else *)

Definition bora_url : string := "https://www.jenniferfurniture.com/p/bora.html".

Definition bora_html : string :=
  ("<span" ++ attr "class" "price-new" ++ ">$12.99</span>")%string.

Definition bora_price : Tag :=
  element "span" "$12.99" [("class", "price-new")] [].

Definition bora : Soup :=
  document [ ("span.price-new", [bora_price]) ] [] [] bora_html.

(** *** A page whose main image has no address, next to one that has *)

Definition cara_html : string :=
  ("<div" ++ attr "class" "product-image-main" ++ "><img" ++ attr "alt" "sofa"
   ++ "/></div><img" ++ attr "src" "https://cdn.example.com/product-2.jpg"
   ++ "/>")%string.

Definition cara_main_img : Tag := element "img" EmptyString [("alt", "sofa")] [].
Definition cara_other_img : Tag :=
  element "img" EmptyString [("src", "https://cdn.example.com/product-2.jpg")] [].

Definition cara : Soup :=
  document
    [ ("div.product-image-main img", [cara_main_img]) ]
    [ ("img", [cara_main_img; cara_other_img]) ]
    []
    cara_html.

(** *** A page without any markup the scraper knows, and one with a price in
    its running text only *)

Definition bare : Soup := document [] [] [] "<p>Coming soon</p>".

Definition dora : Soup :=
  document [] [] [] "<p>Now only $249.50 today</p>".

(** *** A listing page with two cards and no link to a next page *)

Definition sofas_url : string :=
  "https://www.jenniferfurniture.com/collections/sofas.html".

Definition alba_anchor : Tag :=
  element "a" "Alba" [("class", "product-title"); ("href", alba_url)] [].
Definition cleo_anchor : Tag :=
  element "a" "Cleo" [("class", "product-title"); ("href", cleo_url)] [].

Definition alba_card : Tag :=
  element "div" "Alba" [("class", "product-card")]
    [("a.product-title", [alba_anchor]); ("a", [alba_anchor])].
Definition cleo_card : Tag :=
  element "div" "Cleo" [("class", "product-card")]
    [("a.product-title", [cleo_anchor]); ("a", [cleo_anchor])].

Definition sofas_html : string :=
  ("<div" ++ attr "class" "product-grid" ++ ">"
   ++ "<div" ++ attr "class" "product-card" ++ "><a"
   ++ attr "class" "product-title" ++ attr "href" alba_url ++ ">Alba</a></div>"
   ++ "<div" ++ attr "class" "product-card" ++ "><a"
   ++ attr "class" "product-title" ++ attr "href" cleo_url ++ ">Cleo</a></div>"
   ++ "</div>")%string.

Definition sofas : Soup :=
  document
    [ (".product-grid .product-card", [alba_card; cleo_card]);
      (".product-card", [alba_card; cleo_card]);
      ("a", [alba_anchor; cleo_anchor]) ]
    [ ("a", [alba_anchor; cleo_anchor]) ]
    []
    sofas_html.

(** *** A listing page whose next link points back at the page itself *)

Definition beds_url : string :=
  "https://www.jenniferfurniture.com/collections/beds.html".

Definition beds_next : Tag :=
  element "a" "More" [("class", "next"); ("href", beds_url)] [].
Definition alba_link : Tag :=
  element "a" "Alba" [("class", "product-link"); ("href", alba_url)] [].
Definition beds_card : Tag :=
  element "div" "Alba" [("class", "product-card")]
    [("a.product-link", [alba_link]); ("a", [alba_link])].

Definition beds_html : string :=
  ("<div" ++ attr "class" "product-card" ++ "><a" ++ attr "class" "product-link"
   ++ attr "href" alba_url ++ ">Alba</a></div><a" ++ attr "class" "next"
   ++ attr "href" beds_url ++ ">More</a>")%string.

Definition beds : Soup :=
  document
    [ (".product-card", [beds_card]);
      ("a.next", [beds_next]);
      ("a", [alba_link; beds_next]) ]
    [ ("a", [alba_link; beds_next]) ]
    []
    beds_html.

(** *** The site *)

Definition pages_of_site : dict string :=
  [ (sofas_url, sofas_html); (beds_url, beds_html);
    (alba_url, alba_html); (cleo_url, cleo_html); (bora_url, bora_html) ].

Definition requests_get (url : string) : option string :=
  Dict.get pages_of_site url.

Definition BeautifulSoup (html : string) : Soup :=
  lookup
    [ (sofas_html, sofas); (beds_html, beds); (alba_html, alba);
      (cleo_html, cleo); (bora_html, bora); (cara_html, cara) ]
    bare html.

(** *** A listing page whose two cards show the same product *)

Definition twins_url : string :=
  "https://www.jenniferfurniture.com/collections/twins.html".

Definition alba_oak_anchor : Tag :=
  element "a" "Alba in oak" [("class", "product-title"); ("href", alba_url)] [].

Definition alba_oak_card : Tag :=
  element "div" "Alba in oak" [("class", "product-card")]
    [("a.product-title", [alba_oak_anchor]); ("a", [alba_oak_anchor])].

Definition twins_html : string :=
  ("<div" ++ attr "class" "product-grid" ++ ">"
   ++ "<div" ++ attr "class" "product-card" ++ "><a"
   ++ attr "class" "product-title" ++ attr "href" alba_url ++ ">Alba</a></div>"
   ++ "<div" ++ attr "class" "product-card" ++ "><a"
   ++ attr "class" "product-title" ++ attr "href" alba_url
   ++ ">Alba in oak</a></div></div>")%string.

Definition twins : Soup :=
  document
    [ (".product-grid .product-card", [alba_card; alba_oak_card]);
      (".product-card", [alba_card; alba_oak_card]);
      ("a", [alba_anchor; alba_oak_anchor]) ]
    [ ("a", [alba_anchor; alba_oak_anchor]) ]
    []
    twins_html.

(** The site with this page added. *)
Definition twins_requests_get (url : string) : option string :=
  if String.eqb url twins_url then Some twins_html else requests_get url.

Definition twins_BeautifulSoup (html : string) : Soup :=
  if String.eqb html twins_html then twins else BeautifulSoup html.

End Sample.

(** * Properties *)

(** ** The string functions and the patterns on examples *)

Example strip_ex : Str.strip "  a b
 " = "a b".
Proof. reflexivity. Qed.

Example price_findall_ex :
  Re.findall Re.price_at "was $12.5 now $9.99, $ 3 $7.123" = ["$12"; "$9.99"; "$7.12"].
Proof. reflexivity. Qed.

Example sku_findall_ex :
  Re.findall Re.sku_at "SKU: AB-12 sku:x SKU:  ? SKUz9" = ["AB-12"; "z9"].
Proof. reflexivity. Qed.

Example page_sub_ex :
  Re.sub Re.page_at "page=3" "/c?page=2&x=1" = "/c?page=3&x=1".
Proof. reflexivity. Qed.

Example of_N_ex : Str.of_N 0 = "0" /\ Str.of_N 120 = "120" /\ Str.int "007" = 7%N.
Proof. repeat split; reflexivity. Qed.

Example next_link_selectors_ex :
  map Str.before_colon (List.filter (Str.endswith Pagination.contains_next)
                          Pagination.next_link_selectors)
  = [".pagination a"; "a"].
Proof. reflexivity. Qed.

(** ** Dictionaries *)

Lemma get_set_same {V : Type} (d : dict V) (k : string) (v : V) :
  Dict.get (Dict.set d k v) k = Some v.
Proof.
  induction d as [|[k' v'] d IH]; simpl.
  - now rewrite String.eqb_refl.
  - destruct (String.eqb k' k) eqn:E; simpl; rewrite E; auto.
Qed.

Lemma get_set_other {V : Type} (d : dict V) (k k' : string) (v : V) :
  k <> k' -> Dict.get (Dict.set d k v) k' = Dict.get d k'.
Proof.
  intros Hne. induction d as [|[k0 v0] d IH]; simpl.
  - destruct (String.eqb k k') eqn:E; auto.
    apply String.eqb_eq in E. contradiction.
  - destruct (String.eqb k0 k) eqn:E; simpl.
    + apply String.eqb_eq in E. subst k0.
      destruct (String.eqb k k') eqn:E'; auto.
      apply String.eqb_eq in E'. contradiction.
    + now rewrite IH.
Qed.

(** ** The selector loop *)

Section LoopFacts.
Context {A : Type} (query : string -> option A).

Lemma hit_cons (s : string) (rest : list string) :
  hit query (s :: rest)
  = match query s with Some a => Some a | None => hit query rest end.
Proof.
  unfold hit. simpl. destruct (query s); simpl; auto.
  destruct (first_match query rest); auto.
Qed.

Lemma consulted_cons (s : string) (rest : list string) :
  consulted query (s :: rest)
  = match query s with Some _ => [s] | None => s :: consulted query rest end.
Proof.
  unfold consulted. simpl. destruct (query s); simpl; auto.
  destruct (first_match query rest); auto.
Qed.

(** The loop breaks at the first selector when that one answers. *)
Lemma first_wins (s : string) (rest : list string) (a : A) :
  query s = Some a ->
  hit query (s :: rest) = Some a /\ consulted query (s :: rest) = [s].
Proof.
  intros H. rewrite hit_cons, consulted_cons, H. auto.
Qed.

Lemma hit_none (selectors : list string) :
  (forall s, In s selectors -> query s = None) -> hit query selectors = None.
Proof.
  induction selectors as [|s rest IH]; intros H.
  - reflexivity.
  - rewrite hit_cons, (H s (or_introl eq_refl)).
    apply IH. intros s' Hs'. apply H. now right.
Qed.

Lemma hit_some (selectors : list string) (a : A) :
  hit query selectors = Some a ->
  exists s, In s selectors /\ query s = Some a.
Proof.
  induction selectors as [|s rest IH]; intros H.
  - discriminate.
  - rewrite hit_cons in H. destruct (query s) eqn:E.
    + exists s. split; [now left | congruence].
    + destruct (IH H) as [s' [Hin Hq]]. exists s'. split; [now right | exact Hq].
Qed.

Lemma some_hit (selectors : list string) (s : string) (a : A) :
  In s selectors -> query s = Some a -> exists b, hit query selectors = Some b.
Proof.
  induction selectors as [|s0 rest IH]; intros Hin Hq.
  - destruct Hin.
  - rewrite hit_cons. destruct (query s0) eqn:E.
    + eauto.
    + destruct Hin as [->|Hin]; [congruence | eauto].
Qed.
End LoopFacts.

(** ** The shape of a product record *)

Section RecordShape.
Import Bs4 Fields.
Variable urljoin : string -> string -> string.
Variable base_url : string.

(** Whatever the page, the record has the eight keys, in this order, each
    bound to the value its field computes. *)
Lemma product_of_shape (soup : Soup) (product_url : string) :
  product_of urljoin base_url soup product_url
  = [ ("title", title_value soup);
      ("price", price_value soup);
      ("original_price", original_price_value soup);
      ("sku", sku_value soup);
      ("description", description_value soup);
      ("images", VList (images_value urljoin base_url soup));
      ("specifications", VDict (specifications_value soup));
      ("url", VStr product_url) ].
Proof.
  unfold product_of.
  assert (Ht : title_field soup [] = [("title", title_value soup)]).
  { unfold title_field, title_value.
    destruct (hit _ title_selectors); simpl; auto.
    destruct (find_all soup "h1"); auto. }
  rewrite Ht.
  assert (Hp : forall t, price_field soup [("title", t)]
                         = [("title", t); ("price", price_value soup)]).
  { intros t. unfold price_field, price_value.
    destruct (hit _ price_selectors); simpl; auto.
    destruct (Re.findall _ _); auto. }
  rewrite Hp.
  assert (Ho : forall t p,
             original_price_field soup [("title", t); ("price", p)]
             = [("title", t); ("price", p);
                ("original_price",
                 match hit (soup_select_one soup) original_price_selectors with
                 | Some e => VStr (price_text e)
                 | None => p
                 end)]).
  { intros t p. unfold original_price_field.
    destruct (hit _ original_price_selectors); simpl; auto. }
  rewrite Ho. fold (original_price_value soup).
  set (t := title_value soup). set (p := price_value soup).
  set (o := original_price_value soup).
  assert (Hs : sku_field soup [("title", t); ("price", p); ("original_price", o)]
               = [("title", t); ("price", p); ("original_price", o);
                  ("sku", sku_value soup)]).
  { unfold sku_field, sku_value.
    destruct (hit _ sku_selectors); simpl; auto.
    destruct (Re.findall _ _); auto. }
  rewrite Hs. set (k := sku_value soup).
  assert (Hd : description_field soup
                 [("title", t); ("price", p); ("original_price", o); ("sku", k)]
               = [("title", t); ("price", p); ("original_price", o); ("sku", k);
                  ("description", description_value soup)]).
  { unfold description_field, description_value.
    destruct (hit _ description_selectors); simpl; auto.
    destruct (find_meta soup "description"); auto.
    destruct (truthy _); auto. }
  rewrite Hd.
  unfold images_field, specifications_field, images_value, specifications_value.
  destruct (located_images urljoin base_url soup); reflexivity.
Qed.

Lemma product_of_keys (soup : Soup) (product_url : string) :
  Dict.keys (product_of urljoin base_url soup product_url)
  = ["title"; "price"; "original_price"; "sku"; "description"; "images";
     "specifications"; "url"].
Proof. now rewrite product_of_shape. Qed.
Lemma title_value_first (soup : Soup) (e : Tag) :
  soup_select_one soup "h1.product-title" = Some e ->
  title_value soup = VStr (Str.strip (text e)).
Proof.
  intros H. unfold title_value, title_selectors. now rewrite hit_cons, H.
Qed.

Lemma price_value_first (soup : Soup) (e : Tag) :
  soup_select_one soup "span.price-new" = Some e ->
  price_value soup = VStr (Re.sub_non_price (Str.strip (text e))).
Proof.
  intros H. unfold price_value, price_selectors. now rewrite hit_cons, H.
Qed.
End RecordShape.

(** ** Strings and patterns *)

Lemma all_filter (p : ascii -> bool) (s : string) :
  Str.all p (Str.filter p s) = true.
Proof.
  induction s as [|c s IH]; simpl; auto.
  destruct (p c) eqn:E; simpl; auto. now rewrite E.
Qed.

Lemma findall_from_Forall {R : Type} (match_at : string -> option (nat * R))
  (P : R -> Prop) :
  (forall s n r, match_at s = Some (n, r) -> P r) ->
  forall s skip, Forall P (Re.findall_from match_at skip s).
Proof.
  intros H s. induction s as [|c s IH]; intros skip; simpl.
  - constructor.
  - destruct skip as [|k]; [|apply IH].
    destruct (match_at (String c s)) as [[n r]|] eqn:E; [|apply IH].
    constructor; [eapply H; eauto | apply IH].
Qed.

Lemma price_at_dollar (s : string) (n : nat) (m : string) :
  Re.price_at s = Some (n, m) -> exists t, m = String "$"%char t.
Proof.
  unfold Re.price_at. destruct s as [|c s]; [discriminate|].
  destruct (Ascii.eqb c "$"%char) eqn:Ec.
  - apply Ascii.eqb_eq in Ec. subst c.
    destruct (Str.span Str.isdigit s) as [ds rest].
    destruct ds as [|d ds]; [discriminate|].
    intros H. injection H as _ Hm. subst m.
    destruct rest as [|r0 rest]; [eauto|].
    destruct (Ascii.eqb r0 "."%char) eqn:Er.
    + apply Ascii.eqb_eq in Er. subst r0.
      destruct rest as [|a [|b rest]]; eauto.
      destruct (Str.isdigit a && Str.isdigit b); simpl; eauto.
    + assert (Hr : r0 <> "."%char) by (intros ->; now rewrite Ascii.eqb_refl in Er).
      destruct r0 as [[] [] [] [] [] [] [] []]; eauto; contradiction.
  - assert (Hc : c <> "$"%char) by (intros ->; now rewrite Ascii.eqb_refl in Ec).
    destruct c as [[] [] [] [] [] [] [] []]; try discriminate; contradiction.
Qed.

Lemma price_findall_dollar (s : string) :
  Forall (fun m => exists t, m = String "$"%char t) (Re.findall Re.price_at s).
Proof.
  apply findall_from_Forall. intros s' n r H. eapply price_at_dollar; eauto.
Qed.

(** ** Field extraction *)

Section FieldProperties.
Import Bs4 Fields.
Variable urljoin : string -> string -> string.
Variable base_url : string.

Local Abbreviation product_of := (Fields.product_of urljoin base_url).

Lemma no_matches_hit (soup : Soup) (selectors : list string) :
  no_matches soup selectors ->
  hit (fun s => nonempty (soup_select soup s)) selectors = None.
Proof.
  intros H. apply hit_none. intros s Hs. now rewrite (H s Hs).
Qed.

(** C1, as the code has it.  When the first selector of a field matches,
    the loop consults that selector only and the record holds what its
    match gives: the stripped text for title and description, the stripped
    text with everything but digits, commas and periods removed for price
    and original_price, the stripped text without its SKU label for sku,
    the rows of the match for specifications.  For images it holds the
    addresses of the matched elements when there is at least one; when the
    matched elements carry no address, the scan of every image of the page
    supplies the list. *)
Theorem first_locator_wins (soup : Soup) (product_url : string) :
  let product := product_of soup product_url in
  (forall e, soup_select_one soup "h1.product-title" = Some e ->
     Dict.get product "title" = Some (VStr (Str.strip (text e)))
     /\ consulted (soup_select_one soup) title_selectors = ["h1.product-title"])
  /\ (forall e, soup_select_one soup "span.price-new" = Some e ->
     Dict.get product "price"
     = Some (VStr (Re.sub_non_price (Str.strip (text e))))
     /\ consulted (soup_select_one soup) price_selectors = ["span.price-new"])
  /\ (forall e, soup_select_one soup "span.price-old" = Some e ->
     Dict.get product "original_price"
     = Some (VStr (Re.sub_non_price (Str.strip (text e))))
     /\ consulted (soup_select_one soup) original_price_selectors
        = ["span.price-old"])
  /\ (forall e, soup_select_one soup "div.sku" = Some e ->
     Dict.get product "sku"
     = Some (VStr (Re.sub_sku_label (Str.strip (text e))))
     /\ consulted (soup_select_one soup) sku_selectors = ["div.sku"])
  /\ (forall e, soup_select_one soup "div.product-description" = Some e ->
     Dict.get product "description" = Some (VStr (Str.strip (text e)))
     /\ consulted (soup_select_one soup) description_selectors
        = ["div.product-description"])
  /\ (forall img imgs,
     soup_select soup "div.product-image-main img" = img :: imgs ->
     consulted (fun s => nonempty (soup_select soup s)) image_selectors
     = ["div.product-image-main img"]
     /\ (image_urls urljoin base_url (img :: imgs) <> [] ->
         Dict.get product "images"
         = Some (VList (image_urls urljoin base_url (img :: imgs))))
     /\ (image_urls urljoin base_url (img :: imgs) = [] ->
         Dict.get product "images"
         = Some (VList (product_image_urls urljoin base_url (find_all soup "img")))))
  /\ (forall row rows,
     soup_select soup "div.product-specification div.row" = row :: rows ->
     Dict.get product "specifications"
     = Some (VDict (spec_rows (row :: rows) []))
     /\ consulted (fun s => nonempty (soup_select soup s)) spec_selectors
        = ["div.product-specification div.row"]).
Proof.
  intros product. subst product. rewrite product_of_shape.
  repeat split.
  - unfold title_value, title_selectors. rewrite hit_cons, H. reflexivity.
  - unfold title_selectors. rewrite consulted_cons, H. reflexivity.
  - unfold price_value, price_selectors. rewrite hit_cons, H. reflexivity.
  - unfold price_selectors. rewrite consulted_cons, H. reflexivity.
  - unfold original_price_value, original_price_selectors.
    rewrite hit_cons, H. reflexivity.
  - unfold original_price_selectors. rewrite consulted_cons, H. reflexivity.
  - unfold sku_value, sku_selectors. rewrite hit_cons, H. reflexivity.
  - unfold sku_selectors. rewrite consulted_cons, H. reflexivity.
  - unfold description_value, description_selectors.
    rewrite hit_cons, H. reflexivity.
  - unfold description_selectors. rewrite consulted_cons, H. reflexivity.
  - unfold image_selectors. rewrite consulted_cons, H. reflexivity.
  - intros Hne. unfold images_value, located_images, image_selectors.
    rewrite hit_cons, H. cbn [nonempty].
    destruct (image_urls urljoin base_url (img :: imgs)); [contradiction|reflexivity].
  - intros He. unfold images_value, located_images, image_selectors.
    rewrite hit_cons, H. cbn [nonempty]. rewrite He. reflexivity.
  - unfold specifications_value, spec_selectors. rewrite hit_cons, H.
    reflexivity.
  - unfold spec_selectors. rewrite consulted_cons, H. reflexivity.
Qed.

(** C2, as the code has it.  The record always has the seven field keys.
    When no selector of a field matches and the field's fallback finds
    nothing (the price pattern or the SKU pattern in the page text, the
    first [h1] for the title, the [meta] description, the scan of every
    image), title, price, sku and description are ["N/A"], images is the
    empty list and specifications the empty mapping.  original_price has
    no sentinel of its own: without an old-price element it is the value
    of price, hence ["N/A"] exactly when price is. *)
Theorem unmatched_fields_resolve (soup : Soup) (product_url : string) :
  let product := product_of soup product_url in
  (forall k, In k ["title"; "price"; "original_price"; "sku"; "description";
                   "images"; "specifications"] ->
             Dict.mem product k = true)
  /\ (no_element soup title_selectors -> find_all soup "h1" = [] ->
      Dict.get product "title" = Some (VStr "N/A"))
  /\ (no_element soup price_selectors ->
      Re.findall Re.price_at (to_str soup) = [] ->
      Dict.get product "price" = Some (VStr "N/A"))
  /\ (no_element soup original_price_selectors ->
      Dict.get product "original_price" = Dict.get product "price"
      /\ (Dict.get product "original_price" = Some (VStr "N/A")
          <-> Dict.get product "price" = Some (VStr "N/A")))
  /\ (no_element soup sku_selectors ->
      Re.findall Re.sku_at (to_str soup) = [] ->
      Dict.get product "sku" = Some (VStr "N/A"))
  /\ (no_element soup description_selectors ->
      (forall meta_desc, find_meta soup "description" = Some meta_desc ->
                         truthy (get meta_desc "content") = None) ->
      Dict.get product "description" = Some (VStr "N/A"))
  /\ (no_matches soup image_selectors ->
      product_image_urls urljoin base_url (find_all soup "img") = [] ->
      Dict.get product "images" = Some (VList []))
  /\ (no_matches soup spec_selectors ->
      Dict.get product "specifications" = Some (VDict [])).
Proof.
  intros product. subst product. rewrite product_of_shape.
  split; [|split; [|split; [|split; [|split; [|split; [|split]]]]]].
  - intros k Hk. simpl in Hk.
    repeat (destruct Hk as [<-|Hk]; [reflexivity|]). contradiction.
  - intros Hn Hh. unfold title_value.
    rewrite (hit_none _ _ Hn), Hh. reflexivity.
  - intros Hn Hr. unfold price_value.
    rewrite (hit_none _ _ Hn), Hr. reflexivity.
  - intros Hn.
    assert (E : original_price_value soup = price_value soup).
    { unfold original_price_value. now rewrite (hit_none _ _ Hn). }
    cbn. rewrite E. split; [reflexivity | tauto].
  - intros Hn Hr. unfold sku_value.
    rewrite (hit_none _ _ Hn), Hr. reflexivity.
  - intros Hn Hm. unfold description_value. rewrite (hit_none _ _ Hn).
    destruct (find_meta soup "description") as [m|] eqn:E; [|reflexivity].
    rewrite (Hm m eq_refl). reflexivity.
  - intros Hn Hs. unfold images_value, located_images.
    rewrite (no_matches_hit _ _ Hn), Hs. reflexivity.
  - intros Hn. unfold specifications_value.
    rewrite (no_matches_hit _ _ Hn). reflexivity.
Qed.

(** C4.  When no old-price selector has an element on the page,
    original_price is bound to the very value price is bound to, the
    sentinel included; an old-price element, when there is one, overrides
    this with its own cleaned text. *)
Theorem original_price_defaults_to_price (soup : Soup) (product_url : string) :
  let product := product_of soup product_url in
  (no_element soup original_price_selectors ->
   exists v, Dict.get product "price" = Some v
             /\ Dict.get product "original_price" = Some v
             /\ (v = VStr "N/A" -> Dict.get product "original_price" = Some (VStr "N/A")))
  /\ (forall e, hit (soup_select_one soup) original_price_selectors = Some e ->
      Dict.get product "original_price" = Some (VStr (price_text e))).
Proof.
  intros product. subst product. rewrite product_of_shape. split.
  - intros Hn. exists (price_value soup). cbn.
    unfold original_price_value. rewrite (hit_none _ _ Hn).
    repeat split. intros ->. reflexivity.
  - intros e He. cbn. unfold original_price_value. now rewrite He.
Qed.

(** C10.  The price has two formats.  When some price selector has an
    element, the price is made of digits, commas and periods only.  When
    none has and the price pattern occurs in the page text, the price is
    the first occurrence as it stands, which begins with the dollar sign
    and so is not of the first format. *)
Theorem price_format_by_strategy (soup : Soup) (product_url : string) :
  let product := product_of soup product_url in
  ((exists s e, In s price_selectors /\ soup_select_one soup s = Some e) ->
   exists t, Dict.get product "price" = Some (VStr t)
             /\ Str.all Re.price_char t = true)
  /\ (no_element soup price_selectors ->
      Re.findall Re.price_at (to_str soup) <> [] ->
      exists t, Dict.get product "price" = Some (VStr (String "$"%char t))
                /\ hd_error (Re.findall Re.price_at (to_str soup))
                   = Some (String "$"%char t)
                /\ Str.all Re.price_char (String "$"%char t) = false).
Proof.
  intros product. subst product. rewrite product_of_shape. split.
  - intros (s & e & Hin & Hs).
    destruct (some_hit _ _ _ _ Hin Hs) as [b Hb].
    exists (price_text b). cbn. unfold price_value. rewrite Hb.
    split; [reflexivity | apply all_filter].
  - intros Hn Hne. cbn. unfold price_value. rewrite (hit_none _ _ Hn).
    pose proof (price_findall_dollar (to_str soup)) as HF.
    destruct (Re.findall Re.price_at (to_str soup)) as [|m ms]; [contradiction|].
    inversion HF as [|? ? [t ->] _]. exists t. repeat split.
Qed.
End FieldProperties.

(** ** Field extraction on the sample pages *)

(** Settles a statement about every selector of a literal list by trying
    each of them. *)
Ltac each_selector :=
  let s := fresh "s" in
  let Hs := fresh "Hs" in
  intros s Hs; simpl in Hs;
  repeat (destruct Hs as [<-|Hs]; [reflexivity|]); contradiction.

Lemma first_locator_wins_witness :
  let product :=
    Fields.product_of Sample.urljoin Sample.base_url Sample.alba Sample.alba_url in
  Bs4.soup_select_one Sample.alba "h1.product-title" = Some Sample.alba_h1
  /\ Dict.get product "title" = Some (VStr "Alba Sofa")
  /\ Dict.get product "price" = Some (VStr "1,299.00")
  /\ Dict.get product "original_price" = Some (VStr "1,499.00")
  /\ Dict.get product "sku" = Some (VStr "AL-100")
  /\ Dict.get product "description" = Some (VStr "Three seats.")
  /\ Dict.get product "images"
     = Some (VList ["https://www.jenniferfurniture.com/img/alba.jpg"])
  /\ Dict.get product "specifications" = Some (VDict [("Material", "Oak")])
  /\ consulted (Bs4.soup_select_one Sample.alba) Fields.title_selectors
     = ["h1.product-title"].
Proof.
  destruct (first_locator_wins Sample.urljoin Sample.base_url
              Sample.alba Sample.alba_url)
    as (Ht & Hp & Ho & Hs & Hd & Hi & Hr).
  split; [reflexivity|].
  split; [exact (proj1 (Ht Sample.alba_h1 eq_refl))|].
  split; [exact (proj1 (Hp Sample.alba_price eq_refl))|].
  split; [exact (proj1 (Ho Sample.alba_old_price eq_refl))|].
  split; [exact (proj1 (Hs Sample.alba_sku eq_refl))|].
  split; [exact (proj1 (Hd Sample.alba_description eq_refl))|].
  split.
  { apply (proj1 (proj2 (Hi Sample.alba_img [] eq_refl))). discriminate. }
  split; [exact (proj1 (Hr Sample.alba_row [] eq_refl))|].
  exact (proj2 (Ht Sample.alba_h1 eq_refl)).
Defined.

(** C1 as worded fails for images: the first image selector matches an
    element, that element has no address, and the record does not hold the
    (empty) list the match gives but what the scan of every image finds. *)
Lemma images_not_from_first_locator :
  let product := Fields.product_of Sample.urljoin Sample.base_url Sample.cara "u" in
  Bs4.soup_select Sample.cara "div.product-image-main img" = [Sample.cara_main_img]
  /\ Fields.image_urls Sample.urljoin Sample.base_url [Sample.cara_main_img] = []
  /\ Dict.get product "images" = Some (VList ["https://cdn.example.com/product-2.jpg"])
  /\ Dict.get product "images"
     <> Some (VList (Fields.image_urls Sample.urljoin Sample.base_url
                       [Sample.cara_main_img])).
Proof.
  repeat split. discriminate.
Qed.

Lemma unmatched_fields_resolve_witness :
  let product := Fields.product_of Sample.urljoin Sample.base_url Sample.bare "u" in
  Fields.no_element Sample.bare Fields.title_selectors
  /\ Dict.get product "title" = Some (VStr "N/A")
  /\ Dict.get product "price" = Some (VStr "N/A")
  /\ Dict.get product "original_price" = Some (VStr "N/A")
  /\ Dict.get product "sku" = Some (VStr "N/A")
  /\ Dict.get product "description" = Some (VStr "N/A")
  /\ Dict.get product "images" = Some (VList [])
  /\ Dict.get product "specifications" = Some (VDict [])
  /\ Dict.mem product "title" = true.
Proof.
  destruct (unmatched_fields_resolve Sample.urljoin Sample.base_url Sample.bare "u")
    as (Hk & Ht & Hp & Ho & Hs & Hd & Hi & Hr).
  assert (Hn : forall l, Fields.no_element Sample.bare l) by (intros l s _; reflexivity).
  assert (Hm : forall l, Fields.no_matches Sample.bare l) by (intros l s _; reflexivity).
  split; [apply Hn|].
  split; [exact (Ht (Hn _) eq_refl)|].
  split; [exact (Hp (Hn _) eq_refl)|].
  split.
  { destruct (Ho (Hn _)) as [_ Hio]. apply Hio. exact (Hp (Hn _) eq_refl). }
  split; [exact (Hs (Hn _) eq_refl)|].
  split; [apply (Hd (Hn _)); intros m Hm'; discriminate Hm'|].
  split; [exact (Hi (Hm _) eq_refl)|].
  split; [exact (Hr (Hm _))|].
  apply Hk. simpl. auto.
Defined.

(** C2 as worded fails for original_price: no old-price selector matches,
    the field has no pattern to fall back on, and the record binds it to the
    price of the page, not to the sentinel. *)
Lemma original_price_without_sentinel :
  let product :=
    Fields.product_of Sample.urljoin Sample.base_url Sample.bora Sample.bora_url in
  Fields.no_element Sample.bora Fields.original_price_selectors
  /\ Dict.get product "original_price" = Some (VStr "12.99")
  /\ Dict.get product "original_price" <> Some (VStr "N/A").
Proof.
  split; [each_selector|]. split; [reflexivity | discriminate].
Qed.

Lemma original_price_defaults_to_price_witness :
  let product :=
    Fields.product_of Sample.urljoin Sample.base_url Sample.bora Sample.bora_url in
  Fields.no_element Sample.bora Fields.original_price_selectors
  /\ exists v, Dict.get product "price" = Some v
               /\ Dict.get product "original_price" = Some v
               /\ (v = VStr "N/A" ->
                   Dict.get product "original_price" = Some (VStr "N/A")).
Proof.
  assert (Hn : Fields.no_element Sample.bora Fields.original_price_selectors)
    by each_selector.
  split; [exact Hn|].
  exact (proj1 (original_price_defaults_to_price Sample.urljoin Sample.base_url
                  Sample.bora Sample.bora_url) Hn).
Defined.

Lemma price_format_by_strategy_witness :
  (exists t,
      Dict.get (Fields.product_of Sample.urljoin Sample.base_url
                  Sample.cleo Sample.cleo_url) "price" = Some (VStr t)
      /\ Str.all Re.price_char t = true)
  /\ (exists t,
      Dict.get (Fields.product_of Sample.urljoin Sample.base_url Sample.dora "u")
        "price" = Some (VStr (String "$"%char t))
      /\ hd_error (Re.findall Re.price_at (Bs4.to_str Sample.dora))
         = Some (String "$"%char t)
      /\ Str.all Re.price_char (String "$"%char t) = false).
Proof.
  split.
  - apply (proj1 (price_format_by_strategy Sample.urljoin Sample.base_url
                    Sample.cleo Sample.cleo_url)).
    exists "span.price-new", Sample.cleo_price. split; [simpl; auto | reflexivity].
  - apply (proj2 (price_format_by_strategy Sample.urljoin Sample.base_url
                    Sample.dora "u")).
    + intros s _. reflexivity.
    + discriminate.
Defined.

(** ** Listing pages *)

Lemma mem_true_iff (x : string) (l : list string) :
  Str.mem x l = true <-> In x l.
Proof.
  unfold Str.mem. rewrite existsb_exists. split.
  - intros [y [Hin Heq]]. apply String.eqb_eq in Heq. now subst.
  - intros Hin. exists x. split; [exact Hin | apply String.eqb_refl].
Qed.

Lemma mem_app (x : string) (l1 l2 : list string) :
  Str.mem x (l1 ++ l2) = Str.mem x l1 || Str.mem x l2.
Proof. unfold Str.mem. apply existsb_app. Qed.

Lemma NoDup_map_injective {A B : Type} (f : A -> B) (l : list A) :
  (forall a b, f a = f b -> a = b) -> NoDup l -> NoDup (map f l).
Proof.
  intros Hf. induction 1 as [|a l Hnin _ IH]; simpl; constructor; [|exact IH].
  rewrite in_map_iff. intros (b & Hb & Hin). apply Hf in Hb. now subst b.
Qed.

Lemma filter_twice {A : Type} (p q : A -> bool) (l : list A) :
  List.filter p (List.filter q l) = List.filter (fun x => q x && p x) l.
Proof.
  induction l as [|a l IH]; simpl; auto.
  destruct (q a); simpl; [destruct (p a)|]; now rewrite IH.
Qed.

Lemma first_occurrences_In (x : string) (l : list string) :
  In x (first_occurrences l) <-> In x l.
Proof.
  induction l as [|u l IH]; simpl; [tauto|].
  rewrite filter_In, IH. split.
  - intros [H|[H _]]; auto.
  - intros [H|H]; auto.
    destruct (String.eqb u x) eqn:E.
    + left. now apply String.eqb_eq.
    + right. auto.
Qed.

Lemma first_occurrences_NoDup (l : list string) : NoDup (first_occurrences l).
Proof.
  induction l as [|u l IH]; simpl; constructor.
  - rewrite filter_In. intros [_ H]. now rewrite String.eqb_refl in H.
  - now apply NoDup_filter.
Qed.

(** The loop "append unless present" computes the first occurrences; those
    already collected stay in front. *)
Lemma add_links_first_occurrences (l acc : list string) :
  fold_left Listing.add_link l acc
  = acc ++ List.filter (fun v => negb (Str.mem v acc)) (first_occurrences l).
Proof.
  revert acc. induction l as [|u l IH]; intros acc; simpl.
  - now rewrite app_nil_r.
  - rewrite IH. unfold Listing.add_link.
    destruct (Str.mem u acc) eqn:E; simpl.
    + f_equal. rewrite filter_twice. apply filter_ext_in. intros v _.
      destruct (String.eqb u v) eqn:Ev; simpl; auto.
      apply String.eqb_eq in Ev. subst v. now rewrite E.
    + rewrite <- app_assoc. simpl. f_equal. f_equal.
      rewrite filter_twice. apply filter_ext. intros v.
      rewrite mem_app. unfold Str.mem at 2. simpl.
      rewrite orb_false_r, negb_orb, andb_comm.
      now rewrite String.eqb_sym.
Qed.

Section ListingProperties.
Import Bs4 Listing.
Variable urljoin : string -> string -> string.
Variable base_url : string.

Lemma card_links_fold (cards : list Tag) (acc : list string) :
  card_links urljoin base_url cards acc
  = fold_left add_link (card_urls urljoin base_url cards) acc.
Proof.
  revert acc. induction cards as [|card cards IH]; intros acc; simpl; auto.
  destruct (card_href card); simpl; auto.
Qed.

Lemma anchor_links_fold (all_links : list Tag) (acc : list string) :
  anchor_links urljoin base_url all_links acc
  = fold_left add_link (anchor_urls urljoin base_url all_links) acc.
Proof.
  revert acc. induction all_links as [|link links IH]; intros acc; simpl; auto.
  destruct (truthy (get link "href")); simpl; auto.
  destruct (Str.contains "product" s || Str.contains "/p/" s); simpl; auto.
Qed.

(** The links collected from a listing page hold no address twice, and they
    are the addresses found (on the cards, or on the anchors of the last
    resort when the cards give none), each kept at its first occurrence. *)
Lemma product_links_first_occurrences (soup : Soup) :
  NoDup (product_links urljoin base_url soup)
  /\ product_links urljoin base_url soup
     = match first_occurrences (card_urls urljoin base_url (product_cards soup)) with
       | [] => first_occurrences (anchor_urls urljoin base_url (find_all soup "a"))
       | links => links
       end.
Proof.
  assert (E : forall l, fold_left add_link l [] = first_occurrences l).
  { intros l. rewrite add_links_first_occurrences. simpl.
    induction (first_occurrences l) as [|a fo IH]; simpl;
      [reflexivity | now rewrite IH]. }
  assert (Heq : product_links urljoin base_url soup
     = match first_occurrences (card_urls urljoin base_url (product_cards soup)) with
       | [] => first_occurrences (anchor_urls urljoin base_url (find_all soup "a"))
       | links => links
       end).
  { unfold product_links. now rewrite card_links_fold, anchor_links_fold, !E. }
  split; [|exact Heq].
  rewrite Heq.
  pose proof (first_occurrences_NoDup (card_urls urljoin base_url (product_cards soup))).
  destruct (first_occurrences (card_urls urljoin base_url (product_cards soup)));
    [apply first_occurrences_NoDup | assumption].
Qed.
End ListingProperties.

(** ** The crawl *)

Section CrawlProperties.
Import Bs4 Scraper.
Variable requests_get : string -> option string.
Variable BeautifulSoup : string -> Soup.
Variable urljoin : string -> string -> string.
Variable base_url : string.

Local Abbreviation get_page_html := (Scraper.get_page_html requests_get).
Local Abbreviation parse_product_page :=
  (Scraper.parse_product_page requests_get BeautifulSoup urljoin base_url).
Local Abbreviation parse_links :=
  (Scraper.parse_links requests_get BeautifulSoup urljoin base_url).
Local Abbreviation scrape_category_page :=
  (Scraper.scrape_category_page requests_get BeautifulSoup urljoin base_url).
Local Abbreviation get_next_page_url :=
  (Scraper.get_next_page_url BeautifulSoup urljoin base_url).
Local Abbreviation pages :=
  (Scraper.pages requests_get BeautifulSoup urljoin base_url).
Local Abbreviation scrape_multiple_pages :=
  (Scraper.scrape_multiple_pages requests_get BeautifulSoup urljoin base_url).

Lemma truthy_nonempty (s : string) :
  s <> EmptyString -> truthy (Some s) = Some s.
Proof. destruct s; [contradiction | reflexivity]. Qed.

Lemma pages_zero (current_url : option string) (st : state) :
  pages 0 current_url st = (tt, st).
Proof. reflexivity. Qed.

(** One turn of the loop on a page that could be fetched. *)
Lemma pages_step (remaining : nat) (url html : string) (st : state) :
  url <> EmptyString -> requests_get url = Some html -> html <> EmptyString ->
  pages (S remaining) (Some url) st
  = let '(products, st2) := scrape_category_page url (after (get_page_html url) st) in
    let st3 := after (extend products) st2 in
    match get_next_page_url url html with
    | Some next => if String.eqb next url then (tt, st3)
                   else pages remaining (Some next) st3
    | None => pages remaining None st3
    end.
Proof.
  intros Hu Hg Hh. cbn [Scraper.pages]. rewrite (truthy_nonempty _ Hu).
  unfold bind at 1. unfold Scraper.get_page_html at 1. rewrite Hg.
  rewrite (truthy_nonempty _ Hh). unfold bind at 1.
  unfold after at 1. unfold Scraper.get_page_html at 1. cbn [snd].
  destruct (Scraper.scrape_category_page _ _ _ _ url _) as [products st2].
  unfold bind at 1. unfold after, extend. cbn [snd].
  destruct (Scraper.get_next_page_url BeautifulSoup urljoin base_url url html)
    as [next|]; [|reflexivity].
  destruct (String.eqb next url); reflexivity.
Qed.

(** C3.  On a listing page whose next address is the page's own address the
    loop ends, whatever number of pages it might still visit: the crawl
    finishes in the state in which the page has been processed, and the
    requests sent are those sent up to then, so neither this address nor any
    other is requested afterwards. *)
Theorem loop_guard_stops (remaining : nat) (url html : string) (st : state) :
  url <> EmptyString -> requests_get url = Some html -> html <> EmptyString ->
  get_next_page_url url html = Some url ->
  let processed := scrape_category_page url (after (get_page_html url) st) in
  pages (S remaining) (Some url) st = (tt, after (extend (fst processed)) (snd processed))
  /\ requests (after (pages (S remaining) (Some url)) st) = requests (snd processed).
Proof.
  intros Hu Hg Hh Hn processed.
  assert (E : pages (S remaining) (Some url) st
              = (tt, after (extend (fst processed)) (snd processed))).
  { subst processed.
    rewrite (pages_step remaining url html st Hu Hg Hh), Hn, String.eqb_refl.
    destruct (Scraper.scrape_category_page _ _ _ _ url _) as [products st2].
    reflexivity. }
  split; [exact E|].
  unfold after at 1. rewrite E. reflexivity.
Qed.

(** *** How the crawl changes the state *)

Lemma adds_ret {A : Type} (a : A) : adds (ret a) a [] [].
Proof. intros st. unfold ret. rewrite !app_nil_r. now destruct st. Qed.

Lemma adds_bind {A B : Type} (m : M A) (k : A -> M B) (a : A) (b : B)
  (p p' : list Product) (l l' : list string) :
  adds m a p l -> adds (k a) b p' l' -> adds (bind m k) b (p ++ p') (l ++ l').
Proof.
  intros Hm Hk st. unfold bind. rewrite Hm, Hk. simpl. now rewrite !app_assoc.
Qed.

Lemma adds_eq {A : Type} (m : M A) (a : A) (p p' : list Product)
  (l l' : list string) :
  adds m a p l -> p = p' -> l = l' -> adds m a p' l'.
Proof. now intros H <- <-. Qed.

Lemma adds_get_page_html (url : string) :
  adds (get_page_html url) (requests_get url) [] [url].
Proof. intros st. unfold Scraper.get_page_html. now rewrite app_nil_r. Qed.

Lemma adds_extend (products : list Product) : adds (extend products) tt products [].
Proof. intros st. unfold extend. now rewrite app_nil_r. Qed.

Lemma adds_parse_product_page (url : string) :
  exists r, adds (parse_product_page url) r [] [url]
            /\ (forall product, r = Some product -> parsed urljoin base_url product).
Proof.
  unfold Scraper.parse_product_page.
  destruct (truthy (requests_get url)) as [html|] eqn:E.
  - eexists. split.
    + change [url] with ([url] ++ []). change (@nil Product) with (@nil Product ++ []).
      eapply adds_bind; [apply adds_get_page_html|]. rewrite E. apply adds_ret.
    + intros product [= <-]. now exists (BeautifulSoup html), url.
  - exists None. split; [|discriminate].
    change [url] with ([url] ++ []). change (@nil Product) with (@nil Product ++ []).
    eapply adds_bind; [apply adds_get_page_html|]. rewrite E. apply adds_ret.
Qed.

Lemma adds_parse_links (links : list string) (products : list Product) :
  Forall (parsed urljoin base_url) products ->
  exists r log, adds (parse_links links products) r [] log /\ Forall (parsed urljoin base_url) r.
Proof.
  revert products. induction links as [|link links IH]; intros products Hp.
  - exists products, []. split; [apply adds_ret | exact Hp].
  - cbn [Scraper.parse_links].
    destruct (adds_parse_product_page link) as (r & Hr & Hparsed).
    assert (Hnext : exists r' log,
               adds (match r with
                     | Some (entry :: entries) =>
                         parse_links links (products ++ [entry :: entries])
                     | _ => parse_links links products
                     end) r' [] log /\ Forall (parsed urljoin base_url) r').
    { destruct r as [[|entry entries]|]; try (apply IH; exact Hp).
      apply IH. apply Forall_app. split; [exact Hp|].
      constructor; [now apply Hparsed | constructor]. }
    destruct Hnext as (r' & log & Hadds & Hall).
    exists r', ([link] ++ log). split; [|exact Hall].
    change (@nil Product) with (@nil Product ++ []).
    eapply adds_bind; [exact Hr | exact Hadds].
Qed.

Lemma adds_scrape_category_page (url : string) :
  exists r log, adds (scrape_category_page url) r [] log /\ Forall (parsed urljoin base_url) r.
Proof.
  unfold Scraper.scrape_category_page.
  destruct (truthy (requests_get url)) as [html|] eqn:E.
  - destruct (adds_parse_links
                (Listing.product_links urljoin base_url (BeautifulSoup html)) []
                (Forall_nil _)) as (r & log & Hadds & Hall).
    exists r, ([url] ++ log). split; [|exact Hall].
    change (@nil Product) with (@nil Product ++ []).
    eapply adds_bind; [apply adds_get_page_html|]. now rewrite E.
  - exists [], ([url] ++ []). split; [|constructor].
    change (@nil Product) with (@nil Product ++ []).
    eapply adds_bind; [apply adds_get_page_html|]. rewrite E. apply adds_ret.
Qed.

Lemma adds_pages (remaining : nat) (current_url : option string) :
  exists products log,
    adds (pages remaining current_url) tt products log /\ Forall (parsed urljoin base_url) products.
Proof.
  revert current_url. induction remaining as [|remaining IH]; intros current_url.
  - exists [], []. split; [apply adds_ret | constructor].
  - cbn [Scraper.pages].
    destruct (truthy current_url) as [url|];
      [|exists [], []; split; [apply adds_ret | constructor]].
    destruct (truthy (requests_get url)) as [html|] eqn:E.
    + destruct (adds_scrape_category_page url) as (r & log & Hr & Hall).
      assert (Hrest : exists products' log',
                 adds (match get_next_page_url url html with
                       | Some next =>
                           if String.eqb next url then ret tt
                           else pages remaining (get_next_page_url url html)
                       | None => pages remaining (get_next_page_url url html)
                       end) tt products' log' /\ Forall (parsed urljoin base_url) products').
      { destruct (Scraper.get_next_page_url _ _ _ url html) as [next|];
          [|apply IH].
        destruct (String.eqb next url); [|apply IH].
        exists [], []. split; [apply adds_ret | constructor]. }
      destruct Hrest as (products' & log' & Hrest & Hall').
      exists (r ++ products'), (url :: log ++ log').
      split; [|apply Forall_app; auto].
      eapply adds_eq.
      * eapply adds_bind; [apply adds_get_page_html|]. rewrite E.
        eapply adds_bind; [exact Hr|].
        eapply adds_bind; [apply adds_extend | exact Hrest].
      * reflexivity.
      * reflexivity.
    + exists [], ([url] ++ []). split; [|constructor].
      change (@nil Product) with (@nil Product ++ []).
      eapply adds_bind; [apply adds_get_page_html|]. rewrite E. apply adds_ret.
Qed.

(** C9, as the code has it.  The list of records belongs to the scraper
    object, not to one crawl: a crawl returns the records the scraper already
    held followed by the records this crawl aggregates (those a new scraper
    would return for the same crawl), and the scraper keeps the whole list
    afterwards.  Only on a new scraper does a crawl return exactly its own
    records. *)
Theorem crawl_returns_kept_and_new (start_url : string) (max_pages : Z)
  (st : state) :
  let crawl := scrape_multiple_pages start_url max_pages in
  result crawl st = all_products st ++ result crawl fresh
  /\ all_products (after crawl st) = result crawl st.
Proof.
  intros crawl. subst crawl. unfold Scraper.scrape_multiple_pages, result, after, bind.
  destruct (adds_pages (Z.to_nat max_pages) (Some start_url))
    as (products & log & Hadds & _).
  rewrite (Hadds st), (Hadds fresh). simpl. split; reflexivity.
Qed.

(** *** One listing page with two cards *)

Lemma parse_product_page_fetched (url html : string) (st : state) :
  requests_get url = Some html -> html <> EmptyString ->
  parse_product_page url st
  = (Some (Fields.product_of urljoin base_url (BeautifulSoup html) url),
     after (get_page_html url) st).
Proof.
  intros Hg Hh. unfold Scraper.parse_product_page, bind, after.
  unfold Scraper.get_page_html at 1. rewrite Hg, (truthy_nonempty _ Hh).
  reflexivity.
Qed.

Lemma parse_links_fetched (url html : string) (rest : list string)
  (products : list Product) (st : state) :
  requests_get url = Some html -> html <> EmptyString ->
  parse_links (url :: rest) products st
  = parse_links rest
      (products ++ [Fields.product_of urljoin base_url (BeautifulSoup html) url])
      (after (get_page_html url) st).
Proof.
  intros Hg Hh. cbn [Scraper.parse_links]. unfold bind at 1.
  rewrite (parse_product_page_fetched url html st Hg Hh).
  now rewrite product_of_shape.
Qed.

(** C8, as the code has it.  A crawl of at most one page by a new scraper,
    over a listing page with exactly two cards, each with a link to a
    product page that can be fetched and shows a title and a price under the
    first selector.  When the two links resolve to two different addresses,
    the crawl returns exactly two records, one per product page in the order
    of the cards, and sends four requests: the listing address (once by the
    loop and once by the scan of the page) and the two product addresses.
    When they resolve to the same address, the address is kept once, the
    crawl returns one record and sends three requests.  In both cases no
    second listing page is requested, with or without a next link. *)
Theorem two_cards_one_page (start_url html h1 h2 page1 page2 : string)
  (card1 card2 title1 price1 title2 price2 : Tag) :
  let u1 := urljoin base_url h1 in
  let u2 := urljoin base_url h2 in
  start_url <> EmptyString ->
  requests_get start_url = Some html -> html <> EmptyString ->
  Listing.product_cards (BeautifulSoup html) = [card1; card2] ->
  Listing.card_href card1 = Some h1 -> Listing.card_href card2 = Some h2 ->
  requests_get u1 = Some page1 -> page1 <> EmptyString ->
  requests_get u2 = Some page2 -> page2 <> EmptyString ->
  soup_select_one (BeautifulSoup page1) "h1.product-title" = Some title1 ->
  soup_select_one (BeautifulSoup page1) "span.price-new" = Some price1 ->
  soup_select_one (BeautifulSoup page2) "h1.product-title" = Some title2 ->
  soup_select_one (BeautifulSoup page2) "span.price-new" = Some price2 ->
  let crawl := scrape_multiple_pages start_url 1 in
  (u1 <> u2 ->
   exists r1 r2,
     result crawl fresh = [r1; r2]
     /\ Dict.get r1 "url" = Some (VStr u1)
     /\ Dict.get r1 "title" = Some (VStr (Str.strip (text title1)))
     /\ Dict.get r1 "price" = Some (VStr (Re.sub_non_price (Str.strip (text price1))))
     /\ Dict.get r2 "url" = Some (VStr u2)
     /\ Dict.get r2 "title" = Some (VStr (Str.strip (text title2)))
     /\ Dict.get r2 "price" = Some (VStr (Re.sub_non_price (Str.strip (text price2))))
     /\ requests (after crawl fresh) = [start_url; start_url; u1; u2])
  /\ (u1 = u2 ->
      exists r1,
        result crawl fresh = [r1]
        /\ Dict.get r1 "url" = Some (VStr u1)
        /\ Dict.get r1 "title" = Some (VStr (Str.strip (text title1)))
        /\ Dict.get r1 "price"
           = Some (VStr (Re.sub_non_price (Str.strip (text price1))))
        /\ requests (after crawl fresh) = [start_url; start_url; u1]).
Proof.
  intros u1 u2 Hs Hg Hh Hcards Hc1 Hc2 Hg1 Hp1 Hg2 Hp2 Ht1 Hpr1 Ht2 Hpr2 crawl.
  set (r1 := Fields.product_of urljoin base_url (BeautifulSoup page1) u1).
  set (r2 := Fields.product_of urljoin base_url (BeautifulSoup page2) u2).
  assert (Hcollect : Listing.product_links urljoin base_url (BeautifulSoup html)
                     = if String.eqb u2 u1 then [u1] else [u1; u2]).
  { unfold Listing.product_links. rewrite Hcards. cbn [Listing.card_links].
    rewrite Hc1, Hc2. fold u1 u2. unfold Listing.add_link, Str.mem. simpl.
    rewrite orb_false_r. destruct (String.eqb u2 u1); reflexivity. }
  assert (Hend : forall st, pages 0 (get_next_page_url start_url html) st = (tt, st))
    by reflexivity.
  split.
  - intros Hne.
    assert (Hlinks : Listing.product_links urljoin base_url (BeautifulSoup html)
                     = [u1; u2]).
    { rewrite Hcollect. destruct (String.eqb u2 u1) eqn:E; [|reflexivity].
      apply String.eqb_eq in E. now elim Hne. }
    assert (Hscan : forall st,
               scrape_category_page start_url st
               = ([r1; r2],
                  after (get_page_html u2)
                    (after (get_page_html u1) (after (get_page_html start_url) st)))).
    { intros st. unfold Scraper.scrape_category_page, bind.
      unfold Scraper.get_page_html at 1. rewrite Hg, (truthy_nonempty _ Hh), Hlinks.
      rewrite (parse_links_fetched u1 page1 _ _ _ Hg1 Hp1).
      rewrite (parse_links_fetched u2 page2 _ _ _ Hg2 Hp2).
      reflexivity. }
    assert (Hrun : pages 1 (Some start_url) fresh
                   = (tt, mkState [r1; r2] [start_url; start_url; u1; u2] [] [])).
    { rewrite (pages_step 0 start_url html fresh Hs Hg Hh), Hscan.
      destruct (Scraper.get_next_page_url _ _ _ start_url html) as [next|];
        [destruct (String.eqb next start_url)|]; reflexivity. }
    assert (Hcrawl : crawl fresh
                     = ([r1; r2],
                        mkState [r1; r2] [start_url; start_url; u1; u2] [] [])).
    { subst crawl. unfold Scraper.scrape_multiple_pages, bind.
      change (Z.to_nat 1) with 1. now rewrite Hrun. }
    exists r1, r2. unfold result, after. rewrite Hcrawl. cbn [fst snd requests].
    subst r1 r2. rewrite !product_of_shape.
    cbn [Dict.get String.eqb Ascii.eqb Bool.eqb].
    rewrite (title_value_first _ _ Ht1), (price_value_first _ _ Hpr1).
    rewrite (title_value_first _ _ Ht2), (price_value_first _ _ Hpr2).
    repeat split.
  - intros Heq.
    assert (Hlinks : Listing.product_links urljoin base_url (BeautifulSoup html)
                     = [u1]).
    { rewrite Hcollect, <- Heq, String.eqb_refl. reflexivity. }
    assert (Hscan : forall st,
               scrape_category_page start_url st
               = ([r1],
                  after (get_page_html u1) (after (get_page_html start_url) st))).
    { intros st. unfold Scraper.scrape_category_page, bind.
      unfold Scraper.get_page_html at 1. rewrite Hg, (truthy_nonempty _ Hh), Hlinks.
      rewrite (parse_links_fetched u1 page1 _ _ _ Hg1 Hp1).
      reflexivity. }
    assert (Hrun : pages 1 (Some start_url) fresh
                   = (tt, mkState [r1] [start_url; start_url; u1] [] [])).
    { rewrite (pages_step 0 start_url html fresh Hs Hg Hh), Hscan.
      destruct (Scraper.get_next_page_url _ _ _ start_url html) as [next|];
        [destruct (String.eqb next start_url)|]; reflexivity. }
    assert (Hcrawl : crawl fresh
                     = ([r1], mkState [r1] [start_url; start_url; u1] [] [])).
    { subst crawl. unfold Scraper.scrape_multiple_pages, bind.
      change (Z.to_nat 1) with 1. now rewrite Hrun. }
    exists r1. unfold result, after. rewrite Hcrawl. cbn [fst snd requests].
    subst r1. rewrite !product_of_shape.
    cbn [Dict.get String.eqb Ascii.eqb Bool.eqb].
    rewrite (title_value_first _ _ Ht1), (price_value_first _ _ Hpr1).
    repeat split.
Qed.

(** *** The records of one listing page *)

(** The product pages that can be fetched, among the links of a page. *)
Lemma parse_links_urls (links : list string) (products : list Product)
  (st : state) :
  map (fun p => Dict.get p "url") (result (parse_links links products) st)
  = map (fun p => Dict.get p "url") products
    ++ map (fun u => Some (VStr u))
         (List.filter (fun u => match truthy (requests_get u) with
                                | Some _ => true
                                | None => false
                                end) links).
Proof.
  revert products st. induction links as [|link links IH]; intros products st.
  - simpl. now rewrite app_nil_r.
  - cbn [Scraper.parse_links List.filter]. unfold result, bind.
    unfold Scraper.parse_product_page at 1. unfold bind.
    unfold Scraper.get_page_html at 1.
    destruct (truthy (requests_get link)) as [html|] eqn:E.
    + unfold ret. rewrite product_of_shape.
      match goal with
      | |- context [fst (Scraper.parse_links _ _ _ _ ?l ?ps ?s)] =>
          change (fst (Scraper.parse_links requests_get BeautifulSoup urljoin
                         base_url l ps s))
            with (result (parse_links l ps) s)
      end.
      rewrite IH, map_app, <- app_assoc. reflexivity.
    + unfold ret.
      match goal with
      | |- context [fst (Scraper.parse_links _ _ _ _ ?l ?ps ?s)] =>
          change (fst (Scraper.parse_links requests_get BeautifulSoup urljoin
                         base_url l ps s))
            with (result (parse_links l ps) s)
      end.
      apply IH.
Qed.

(** C5.  The links the scanner collects from a listing page hold no address
    twice; they are the addresses found (on the cards, or on the anchors of
    the last resort when the cards give none), each kept at its first
    occurrence; and the records the scanner returns, one per link whose page
    could be fetched, carry pairwise different addresses. *)
Theorem product_links_unique (soup : Soup) (url : string) (st : state) :
  let links := Listing.product_links urljoin base_url soup in
  NoDup links
  /\ links
     = match first_occurrences
               (Listing.card_urls urljoin base_url (Listing.product_cards soup)) with
       | [] => first_occurrences
                 (Listing.anchor_urls urljoin base_url (find_all soup "a"))
       | found => found
       end
  /\ NoDup (map (fun p => Dict.get p "url")
              (result (scrape_category_page url) st)).
Proof.
  intros links.
  destruct (product_links_first_occurrences urljoin base_url soup) as [Hnd Heq].
  split; [exact Hnd|]. split; [exact Heq|].
  unfold Scraper.scrape_category_page, result, bind.
  unfold Scraper.get_page_html at 1.
  destruct (truthy (requests_get url)) as [page|]; [|constructor].
  match goal with
  | |- context [fst (Scraper.parse_links _ _ _ _ ?l ?ps ?s)] =>
      change (fst (Scraper.parse_links requests_get BeautifulSoup urljoin
                     base_url l ps s))
        with (result (parse_links l ps) s)
  end.
  rewrite parse_links_urls. simpl.
  apply NoDup_map_injective.
  - intros a b H. now injection H.
  - apply NoDup_filter.
    apply (product_links_first_occurrences urljoin base_url (BeautifulSoup page)).
Qed.

End CrawlProperties.

(** ** The crawl on the sample site *)

Lemma nonempty_by_eqb (s : string) : String.eqb s EmptyString = false -> s <> EmptyString.
Proof. intros H. now apply String.eqb_neq. Qed.

Lemma loop_guard_stops_witness :
  Scraper.get_next_page_url Sample.BeautifulSoup Sample.urljoin Sample.base_url
    Sample.beds_url Sample.beds_html = Some Sample.beds_url
  /\ requests (after (Scraper.pages Sample.requests_get Sample.BeautifulSoup
                        Sample.urljoin Sample.base_url 4 (Some Sample.beds_url))
                 fresh)
     = [Sample.beds_url; Sample.beds_url; Sample.alba_url].
Proof.
  split; [reflexivity|].
  assert (Hu : Sample.beds_url <> EmptyString)
    by (apply nonempty_by_eqb; reflexivity).
  assert (Hh : Sample.beds_html <> EmptyString)
    by (apply nonempty_by_eqb; reflexivity).
  destruct (loop_guard_stops Sample.requests_get Sample.BeautifulSoup
              Sample.urljoin Sample.base_url 3 Sample.beds_url Sample.beds_html
              fresh Hu eq_refl Hh eq_refl) as [_ H].
  rewrite H. reflexivity.
Defined.

Lemma two_cards_one_page_witness :
  let crawl :=
    Scraper.scrape_multiple_pages Sample.requests_get Sample.BeautifulSoup
      Sample.urljoin Sample.base_url Sample.sofas_url 1 in
  Listing.product_cards (Sample.BeautifulSoup Sample.sofas_html)
  = [Sample.alba_card; Sample.cleo_card]
  /\ exists r1 r2,
      result crawl fresh = [r1; r2]
      /\ Dict.get r1 "url" = Some (VStr Sample.alba_url)
      /\ Dict.get r1 "title" = Some (VStr "Alba Sofa")
      /\ Dict.get r1 "price" = Some (VStr "1,299.00")
      /\ Dict.get r2 "url" = Some (VStr Sample.cleo_url)
      /\ Dict.get r2 "title" = Some (VStr "Cleo Chair")
      /\ Dict.get r2 "price" = Some (VStr "349")
      /\ requests (after crawl fresh)
         = [Sample.sofas_url; Sample.sofas_url; Sample.alba_url; Sample.cleo_url].
Proof.
  split; [reflexivity|].
  refine (proj1 (two_cards_one_page Sample.requests_get Sample.BeautifulSoup
                   Sample.urljoin Sample.base_url
                   Sample.sofas_url Sample.sofas_html Sample.alba_url
                   Sample.cleo_url Sample.alba_html Sample.cleo_html
                   Sample.alba_card Sample.cleo_card
                   Sample.alba_h1 Sample.alba_price Sample.cleo_h1
                   Sample.cleo_price _ _ _ _ _ _ _ _ _ _ _ _ _ _) _);
    try reflexivity; try (apply nonempty_by_eqb; reflexivity).
  apply String.eqb_neq. reflexivity.
Defined.

(** C8 as worded fails: the listing page has exactly two cards and no next
    link, the product page behind them shows a title and a price under the
    first selector, and the crawl of one page returns one record, because the
    two cards link to the same address and line 319 keeps an address once.
    The listing address itself is requested twice. *)
Lemma two_cards_same_link_one_record :
  let crawl :=
    Scraper.scrape_multiple_pages Sample.twins_requests_get
      Sample.twins_BeautifulSoup Sample.urljoin Sample.base_url
      Sample.twins_url 1 in
  Listing.product_cards (Sample.twins_BeautifulSoup Sample.twins_html)
  = [Sample.alba_card; Sample.alba_oak_card]
  /\ Scraper.get_next_page_url Sample.twins_BeautifulSoup Sample.urljoin
       Sample.base_url Sample.twins_url Sample.twins_html = None
  /\ Bs4.soup_select_one (Sample.twins_BeautifulSoup Sample.alba_html)
       "h1.product-title" = Some Sample.alba_h1
  /\ Bs4.soup_select_one (Sample.twins_BeautifulSoup Sample.alba_html)
       "span.price-new" = Some Sample.alba_price
  /\ List.length (result crawl fresh) = 1
  /\ List.length (result crawl fresh) <> 2
  /\ requests (after crawl fresh)
     = [Sample.twins_url; Sample.twins_url; Sample.alba_url].
Proof.
  vm_compute. repeat split. discriminate.
Qed.

(** C9 as worded fails: a second crawl on the same scraper returns the two
    records of the first crawl in front of the two it aggregates itself. *)
Lemma second_crawl_returns_first_records :
  let crawl :=
    Scraper.scrape_multiple_pages Sample.requests_get Sample.BeautifulSoup
      Sample.urljoin Sample.base_url Sample.sofas_url 1 in
  let first := result crawl fresh in
  let second := result crawl (after crawl fresh) in
  List.length first = 2
  /\ second = first ++ first
  /\ List.length second = 4
  /\ second <> first.
Proof.
  vm_compute. repeat split. discriminate.
Qed.

(** ** Pagination *)

(** C6 at an address with a second parameter whose name ends in [page]: no
    next-link selector matches the listing page, the address has the
    component [page=1], and the address returned has [page=2] but also
    [per_page=2] where [per_page=20] stood. *)
Lemma numbered_next_rewrites_other_parameter :
  let url := "https://www.jenniferfurniture.com/collections/sofas?page=1&per_page=20" in
  (forall s, In s Pagination.next_link_selectors ->
             Pagination.next_link Sample.sofas s = None)
  /\ Pagination.next_page_url Sample.urljoin Sample.base_url url Sample.sofas
     = Some "https://www.jenniferfurniture.com/collections/sofas?page=2&per_page=2"
  /\ Pagination.next_page_url Sample.urljoin Sample.base_url url Sample.sofas
     <> Some "https://www.jenniferfurniture.com/collections/sofas?page=2&per_page=20".
Proof.
  split; [each_selector|]. split; [reflexivity | discriminate].
Qed.

(** ** Exports *)

Lemma parsed_well_formed (urljoin : string -> string -> string)
  (base_url : string) (product : Product) :
  Scraper.parsed urljoin base_url product -> Scraper.well_formed product.
Proof.
  intros (soup & url & ->). unfold Scraper.well_formed, Scraper.specifications_of.
  rewrite product_of_shape. simpl. eauto.
Qed.

(** Every record a crawl adds to well-formed records is well formed. *)
Lemma crawl_records_well_formed (requests_get : string -> option string)
  (BeautifulSoup : string -> Bs4.Soup) (urljoin : string -> string -> string)
  (base_url start_url : string) (max_pages : Z) (st : state) :
  Forall Scraper.well_formed (all_products st) ->
  Forall Scraper.well_formed
    (all_products
       (after (Scraper.scrape_multiple_pages requests_get BeautifulSoup urljoin
                 base_url start_url max_pages) st)).
Proof.
  intros H. unfold Scraper.scrape_multiple_pages, after, bind.
  destruct (adds_pages requests_get BeautifulSoup urljoin base_url
              (Z.to_nat max_pages) (Some start_url))
    as (products & log & Hadds & Hall).
  rewrite (Hadds st). simpl. apply Forall_app. split; [exact H|].
  eapply Forall_impl; [|exact Hall]. intros p. apply parsed_well_formed.
Qed.

Lemma spec_fields_well_formed (products : list Product) :
  Forall Scraper.well_formed products ->
  exists fields, Scraper.spec_fields products = Some fields.
Proof.
  induction 1 as [|p ps [entries Hp] _ [fields IH]]; simpl.
  - eauto.
  - rewrite Hp, IH. eauto.
Qed.

Lemma rows_well_formed (fieldnames : list string) (products : list Product) :
  Forall Scraper.well_formed products ->
  exists rs, Scraper.rows fieldnames products = Some rs
             /\ List.length rs = List.length products.
Proof.
  induction 1 as [|p ps [entries Hp] _ [rs [IH Hlen]]]; simpl.
  - eauto.
  - rewrite Hp, IH. eexists. split; [reflexivity|]. simpl. now rewrite Hlen.
Qed.

(** C7.  With no record, the CSV export writes no file and prints a notice,
    while the JSON export writes its file, holding the empty array.  The JSON
    export writes its file for any list of records; with at least one record
    (records as the parser builds them), the CSV export writes its file too,
    one row per record. *)
Theorem exports_of_records (filename : string) (st : state) :
  (all_products st = [] ->
   exists st', Scraper.save_to_csv filename st = Some st'
               /\ files st' = files st
               /\ stdout st' = stdout st ++ ["No products to save"])
  /\ (all_products st = [] ->
      Dict.get (files (after (Scraper.save_to_json filename) st)) filename
      = Some (JsonFile []))
  /\ Dict.get (files (after (Scraper.save_to_json filename) st)) filename
     = Some (JsonFile (all_products st))
  /\ (all_products st <> [] -> Forall Scraper.well_formed (all_products st) ->
      exists st' fieldnames rs,
        Scraper.save_to_csv filename st = Some st'
        /\ Dict.get (files st') filename = Some (CsvFile fieldnames rs)
        /\ List.length rs = List.length (all_products st)).
Proof.
  assert (Hjson : Dict.get (files (after (Scraper.save_to_json filename) st)) filename
                  = Some (JsonFile (all_products st))).
  { unfold Scraper.save_to_json, after, bind, Scraper.write, Scraper.print. simpl.
    apply get_set_same. }
  split; [|split; [|split]].
  - intros He. unfold Scraper.save_to_csv. rewrite He.
    eexists. split; [reflexivity|]. split; reflexivity.
  - intros He. rewrite Hjson, He. reflexivity.
  - exact Hjson.
  - intros Hne Hwf. unfold Scraper.save_to_csv.
    destruct (all_products st) as [|p ps] eqn:E; [contradiction|].
    destruct (spec_fields_well_formed _ Hwf) as [fields Hf]. rewrite Hf.
    destruct (rows_well_formed (Scraper.fieldnames_of fields) _ Hwf) as (rs & Hr & Hlen).
    rewrite Hr. eexists. exists (Scraper.fieldnames_of fields), rs.
    split; [reflexivity|]. split; [|exact Hlen].
    unfold after, bind, Scraper.write, Scraper.print. simpl. apply get_set_same.
Qed.

Lemma exports_of_records_witness :
  let crawl :=
    Scraper.scrape_multiple_pages Sample.requests_get Sample.BeautifulSoup
      Sample.urljoin Sample.base_url Sample.sofas_url 1 in
  (exists st', Scraper.save_to_csv "jennifer_products.csv" fresh = Some st'
               /\ files st' = []
               /\ stdout st' = ["No products to save"])
  /\ Dict.get (files (after (Scraper.save_to_json "jennifer_products.json") fresh))
       "jennifer_products.json" = Some (JsonFile [])
  /\ (exists st' fieldnames rs,
         Scraper.save_to_csv "jennifer_products.csv" (after crawl fresh) = Some st'
         /\ Dict.get (files st') "jennifer_products.csv" = Some (CsvFile fieldnames rs)
         /\ List.length rs = List.length (all_products (after crawl fresh))).
Proof.
  intros crawl. split; [|split].
  - exact (proj1 (exports_of_records "jennifer_products.csv" fresh) eq_refl).
  - exact (proj1 (proj2 (exports_of_records "jennifer_products.json" fresh)) eq_refl).
  - apply (proj2 (proj2 (proj2 (exports_of_records "jennifer_products.csv"
                                  (after crawl fresh))))).
    + vm_compute. discriminate.
    + vm_compute. repeat (constructor; [eexists; reflexivity|]). constructor.
Defined.

(** *** What the numbered-page rule does on an address with one page number *)

Section ScanFacts.
Context {R : Type} (match_at : string -> option (nat * R)).

Lemma none_within_tail (c : ascii) (pre rest : string) :
  Re.none_within match_at (String c pre) rest -> Re.none_within match_at pre rest.
Proof.
  intros H a b E Hb. apply (H (String c a) b); [simpl; now rewrite E | exact Hb].
Qed.

Lemma none_within_head (c : ascii) (pre rest : string) :
  Re.none_within match_at (String c pre) rest -> match_at (String c (pre ++ rest)) = None.
Proof.
  intros H. apply (H EmptyString (String c pre)); [reflexivity | discriminate].
Qed.

Lemma search_after (pre rest : string) :
  Re.none_within match_at pre rest ->
  Re.search match_at (pre ++ rest)%string = Re.search match_at rest.
Proof.
  induction pre as [|c pre IH]; intros H; [reflexivity|].
  change (String c pre ++ rest)%string with (String c (pre ++ rest)).
  cbn [Re.search]. rewrite (none_within_head _ _ _ H).
  apply IH. eapply none_within_tail; eauto.
Qed.

Lemma sub_after (repl pre rest : string) :
  Re.none_within match_at pre rest ->
  Re.sub_from match_at repl 0 (pre ++ rest)%string
  = (pre ++ Re.sub_from match_at repl 0 rest)%string.
Proof.
  induction pre as [|c pre IH]; intros H; [reflexivity|].
  change (String c pre ++ rest)%string with (String c (pre ++ rest)).
  cbn [Re.sub_from]. rewrite (none_within_head _ _ _ H).
  simpl. f_equal. apply IH. eapply none_within_tail; eauto.
Qed.

Lemma sub_skip (repl matched rest : string) :
  Re.sub_from match_at repl (String.length matched) (matched ++ rest)%string
  = Re.sub_from match_at repl 0 rest.
Proof.
  induction matched as [|c m IH]; [reflexivity|]. simpl. exact IH.
Qed.

Lemma sub_unmatched (repl s : string) :
  Re.none_within match_at s EmptyString -> Re.sub_from match_at repl 0 s = s.
Proof.
  induction s as [|c s IH]; intros H; [reflexivity|].
  cbn [Re.sub_from].
  pose proof (none_within_head _ _ _ H) as Hh.
  assert (E : (s ++ EmptyString)%string = s)
    by (clear; induction s as [|c s IH]; simpl; congruence).
  rewrite E in Hh. rewrite Hh. f_equal. apply IH.
  eapply none_within_tail; eauto.
Qed.
End ScanFacts.

Lemma span_digits (digits rest : string) :
  Str.all Str.isdigit digits = true ->
  fst (Str.span Str.isdigit rest) = EmptyString ->
  Str.span Str.isdigit (digits ++ rest)%string = (digits, rest).
Proof.
  induction digits as [|d ds IH]; intros Hd Hr; simpl.
  - destruct rest as [|c rest]; [reflexivity|]. simpl in *.
    destruct (Str.isdigit c); [|reflexivity].
    destruct (Str.span Str.isdigit rest). discriminate.
  - simpl in Hd. apply andb_true_iff in Hd as [Hd Hds].
    rewrite Hd, (IH Hds Hr). reflexivity.
Qed.

Lemma next_page_url_unmatched (urljoin : string -> string -> string)
  (base_url url : string) (soup : Bs4.Soup) :
  (forall s, In s Pagination.next_link_selectors ->
             Pagination.next_link soup s = None) ->
  Pagination.next_page_url urljoin base_url url soup = Pagination.numbered_next url.
Proof.
  intros H. unfold Pagination.next_page_url.
  rewrite hit_none; [reflexivity|]. intros s Hs. now rewrite (H s Hs).
Qed.

(** Without a next link and without [page=<digits>] in the address there is
    no next page. *)
Lemma numbered_next_none (url : string) :
  Re.search Re.page_at url = None -> Pagination.numbered_next url = None.
Proof. intros H. unfold Pagination.numbered_next. now rewrite H. Qed.

(** X11.  An address in which [page=<digits>] occurs once, [pre] before it
    and [post] after it: the number is replaced by its successor, written
    without leading zeros, and the rest of the address is kept. *)
Lemma numbered_next_single (pre digits post : string) :
  digits <> EmptyString -> Str.all Str.isdigit digits = true ->
  fst (Str.span Str.isdigit post) = EmptyString ->
  Re.none_within Re.page_at pre ("page=" ++ digits ++ post)%string ->
  Re.none_within Re.page_at post EmptyString ->
  Pagination.numbered_next (pre ++ "page=" ++ digits ++ post)%string
  = Some (pre ++ "page=" ++ Str.of_N (Str.int digits + 1) ++ post)%string.
Proof.
  intros Hne Hd Hp Hpre Hpost.
  assert (Hat : Re.page_at ("page=" ++ digits ++ post)%string
                = Some (5 + String.length digits, digits)).
  { unfold Re.page_at. cbn [Str.drop_prefix append Ascii.eqb Bool.eqb].
    rewrite (span_digits _ _ Hd Hp). destruct digits; [contradiction|reflexivity]. }
  unfold Pagination.numbered_next.
  rewrite (search_after _ _ _ Hpre).
  assert (Hs : Re.search Re.page_at ("page=" ++ digits ++ post)%string = Some digits).
  { change ("page=" ++ digits ++ post)%string
      with (String "p" ("age=" ++ digits ++ post)%string) in *.
    cbn [Re.search]. now rewrite Hat. }
  rewrite Hs. f_equal. unfold Re.sub. rewrite (sub_after _ _ _ _ Hpre). f_equal.
  change ("page=" ++ digits ++ post)%string
    with (String "p" ("age=" ++ digits ++ post)%string) in *.
  cbn [Re.sub_from]. rewrite Hat.
  change (Nat.pred (5 + String.length digits)) with (4 + String.length digits).
  replace (4 + String.length digits) with (String.length ("age=" ++ digits)%string).
  - replace ("age=" ++ digits ++ post)%string
      with (("age=" ++ digits) ++ post)%string by reflexivity.
    rewrite sub_skip, (sub_unmatched _ _ _ Hpost).
    reflexivity.
  - reflexivity.
Qed.

Lemma none_within_empty {R : Type} (match_at : string -> option (nat * R))
  (rest : string) : Re.none_within match_at EmptyString rest.
Proof.
  intros a b E Hb. destruct a; [|discriminate]. simpl in E. now subst b.
Qed.

Example numbered_next_single_ex :
  Pagination.numbered_next "https://www.jenniferfurniture.com/c/sofas?page=009&sort=new"
  = Some "https://www.jenniferfurniture.com/c/sofas?page=10&sort=new".
Proof. reflexivity. Qed.

(** * Further properties of the code *)

(** ** The loop of [scrape_multiple_pages] *)

Lemma truthy_some (o : option string) (s : string) :
  truthy o = Some s -> o = Some s /\ s <> EmptyString.
Proof.
  destruct o as [[|c t]|]; simpl; intros H; try discriminate.
  injection H as <-. split; [reflexivity | discriminate].
Qed.

Section LoopProperties.
Import Bs4 Scraper.
Variable requests_get : string -> option string.
Variable BeautifulSoup : string -> Soup.
Variable urljoin : string -> string -> string.
Variable base_url : string.

Local Abbreviation get_page_html := (Scraper.get_page_html requests_get).
Local Abbreviation parse_links :=
  (Scraper.parse_links requests_get BeautifulSoup urljoin base_url).
Local Abbreviation scrape_category_page :=
  (Scraper.scrape_category_page requests_get BeautifulSoup urljoin base_url).
Local Abbreviation get_next_page_url :=
  (Scraper.get_next_page_url BeautifulSoup urljoin base_url).
Local Abbreviation pages :=
  (Scraper.pages requests_get BeautifulSoup urljoin base_url).
Local Abbreviation scrape_multiple_pages :=
  (Scraper.scrape_multiple_pages requests_get BeautifulSoup urljoin base_url).
Local Abbreviation scan_requests :=
  (Scraper.scan_requests requests_get BeautifulSoup urljoin base_url).
Local Abbreviation visit_requests :=
  (Scraper.visit_requests requests_get BeautifulSoup urljoin base_url).

Lemma parse_links_state (links : list string) (products : list Product)
  (st : state) :
  after (parse_links links products) st
  = mkState (all_products st) (requests st ++ links) (stdout st) (files st).
Proof.
  revert products st. induction links as [|link links IH]; intros products st.
  - simpl. rewrite app_nil_r. now destruct st.
  - cbn [Scraper.parse_links]. unfold after, bind.
    unfold Scraper.parse_product_page at 1. unfold bind.
    unfold Scraper.get_page_html at 1.
    assert (E : forall ps st',
               snd (Scraper.parse_links requests_get BeautifulSoup urljoin
                      base_url links ps st')
               = mkState (all_products st') (requests st' ++ links)
                   (stdout st') (files st')) by (intros; apply IH).
    destruct (truthy (requests_get link)) as [html|]; unfold ret.
    + rewrite product_of_shape, E. simpl. now rewrite <- app_assoc.
    + rewrite E. simpl. now rewrite <- app_assoc.
Qed.

Lemma scrape_category_page_state (url : string) (st : state) :
  after (scrape_category_page url) st
  = mkState (all_products st) (requests st ++ scan_requests url)
      (stdout st) (files st).
Proof.
  unfold Scraper.scrape_category_page, Scraper.scan_requests, after, bind.
  unfold Scraper.get_page_html at 1.
  destruct (truthy (requests_get url)) as [html|].
  - pose proof (parse_links_state
                  (Listing.product_links urljoin base_url (BeautifulSoup html)) []
                  (mkState (all_products st) (requests st ++ [url]) (stdout st)
                     (files st))) as H.
    unfold after in H. rewrite H. simpl. now rewrite <- app_assoc.
  - reflexivity.
Qed.

(** X6.  [scrape_category_page] asks for the listing page and then for every
    collected link, once each and in the order collected, whether or not the
    pages can be fetched; it changes nothing else.  It returns one record per
    link whose page came with a body, in that order, each under the address
    of its link; when the listing page itself cannot be fetched it returns
    the empty list after that single request. *)
Theorem scanner_requests_and_records (url : string) (st : state) :
  after (scrape_category_page url) st
  = mkState (all_products st) (requests st ++ scan_requests url)
      (stdout st) (files st)
  /\ map (fun p => Dict.get p "url") (result (scrape_category_page url) st)
     = match truthy (requests_get url) with
       | Some html =>
           map (fun u => Some (VStr u))
             (List.filter (fetched requests_get)
                (Listing.product_links urljoin base_url (BeautifulSoup html)))
       | None => []
       end
  /\ (truthy (requests_get url) = None ->
      scrape_category_page url st
      = ([], mkState (all_products st) (requests st ++ [url]) (stdout st) (files st))).
Proof.
  split; [apply scrape_category_page_state|]. split.
  - unfold Scraper.scrape_category_page, result, bind.
    unfold Scraper.get_page_html at 1.
    destruct (truthy (requests_get url)) as [html|]; [|reflexivity].
    pose proof (parse_links_urls requests_get BeautifulSoup urljoin base_url
                  (Listing.product_links urljoin base_url (BeautifulSoup html)) []
                  (mkState (all_products st) (requests st ++ [url]) (stdout st)
                     (files st))) as H.
    unfold result in H. rewrite H. reflexivity.
  - intros E. unfold Scraper.scrape_category_page, bind.
    unfold Scraper.get_page_html at 1. now rewrite E.
Qed.

Lemma scrape_category_page_result (url : string) (st : state) :
  result (scrape_category_page url) st
  = Scraper.page_records requests_get BeautifulSoup urljoin base_url url.
Proof.
  destruct (adds_scrape_category_page requests_get BeautifulSoup urljoin
              base_url url) as (r & log & Hadds & _).
  unfold Scraper.page_records, result. now rewrite (Hadds st), (Hadds fresh).
Qed.

(** What a turn of the loop does, with the state written out. *)
Lemma pages_turn (remaining : nat) (url html : string) (st : state) :
  url <> EmptyString -> truthy (requests_get url) = Some html ->
  pages (S remaining) (Some url) st
  = let st3 :=
      mkState
        (all_products st
         ++ result (scrape_category_page url) (after (get_page_html url) st))
        (requests st ++ visit_requests url) (stdout st) (files st) in
    match get_next_page_url url html with
    | Some next => if String.eqb next url then (tt, st3)
                   else pages remaining (Some next) st3
    | None => pages remaining None st3
    end.
Proof.
  intros Hu Ht. destruct (truthy_some _ _ Ht) as [Hg Hh].
  rewrite (pages_step requests_get BeautifulSoup urljoin base_url
             remaining url html st Hu Hg Hh).
  pose proof (scrape_category_page_state url (after (get_page_html url) st)) as Hs.
  unfold result. unfold after in Hs at 1.
  destruct (Scraper.scrape_category_page _ _ _ _ url _) as [products st2].
  cbn [snd fst] in *. subst st2. unfold after, extend. cbn.
  unfold Scraper.visit_requests. rewrite Ht. rewrite <- app_assoc. reflexivity.
Qed.

Lemma pages_failed (remaining : nat) (url : string) (st : state) :
  url <> EmptyString -> truthy (requests_get url) = None ->
  pages (S remaining) (Some url) st
  = (tt, mkState (all_products st) (requests st ++ [url]) (stdout st) (files st)).
Proof.
  intros Hu Ht. cbn [Scraper.pages].
  rewrite (truthy_nonempty _ Hu). unfold bind at 1.
  unfold Scraper.get_page_html at 1. now rewrite Ht.
Qed.

Lemma pages_no_address (remaining : nat) (current_url : option string)
  (st : state) :
  truthy current_url = None -> pages remaining current_url st = (tt, st).
Proof. intros H. destruct remaining; simpl; [reflexivity | now rewrite H]. Qed.

Lemma pages_visits (remaining : nat) (current_url : option string) (st : state) :
  exists visited,
    List.length visited <= remaining
    /\ requests (after (pages remaining current_url) st)
       = requests st ++ flat_map visit_requests visited
    /\ stdout (after (pages remaining current_url) st) = stdout st
    /\ files (after (pages remaining current_url) st) = files st
    /\ match visited with
       | [] => True
       | first :: _ => current_url = Some first
       end
    /\ all_products (after (pages remaining current_url) st)
       = all_products st
         ++ flat_map (Scraper.page_records requests_get BeautifulSoup urljoin
                        base_url) visited.
Proof.
  revert current_url st.
  induction remaining as [|remaining IH]; intros current_url st.
  - exists []. simpl. rewrite !app_nil_r. repeat split; auto.
  - destruct (truthy current_url) as [url|] eqn:Eu.
    + destruct (truthy_some _ _ Eu) as [-> Hu].
      destruct (truthy (requests_get url)) as [html|] eqn:Eh.
      * unfold after. rewrite (pages_turn remaining url html st Hu Eh). cbv zeta.
        rewrite scrape_category_page_result.
        set (st3 := mkState _ _ _ _).
        assert (Hstop : exists visited,
                   List.length visited <= S remaining
                   /\ requests st3 = requests st ++ flat_map visit_requests visited
                   /\ stdout st3 = stdout st /\ files st3 = files st
                   /\ match visited with
                      | [] => True
                      | first :: _ => Some url = Some first
                      end
                   /\ all_products st3
                      = all_products st
                        ++ flat_map (Scraper.page_records requests_get BeautifulSoup
                                       urljoin base_url) visited).
        { exists [url]. simpl. rewrite !app_nil_r. repeat split. lia. }
        assert (Hgo : forall next,
                   exists visited,
                     List.length visited <= S remaining
                     /\ requests (snd (pages remaining next st3))
                        = requests st ++ flat_map visit_requests visited
                     /\ stdout (snd (pages remaining next st3)) = stdout st
                     /\ files (snd (pages remaining next st3)) = files st
                     /\ match visited with
                        | [] => True
                        | first :: _ => Some url = Some first
                        end
                     /\ all_products (snd (pages remaining next st3))
                        = all_products st
                          ++ flat_map (Scraper.page_records requests_get
                                         BeautifulSoup urljoin base_url) visited).
        { intros next.
          destruct (IH next st3) as (visited & Hl & Hr & Ho & Hf & _ & Hp).
          exists (url :: visited). unfold after in Hr, Ho, Hf, Hp.
          rewrite Hr, Ho, Hf, Hp. simpl. rewrite <- !app_assoc.
          repeat split. lia. }
        destruct (Scraper.get_next_page_url _ _ _ url html) as [next|];
          [destruct (String.eqb next url)|]; auto.
      * unfold after. rewrite (pages_failed remaining url st Hu Eh).
        exists [url]. simpl. unfold Scraper.visit_requests. rewrite Eh.
        assert (Hnone : Scraper.page_records requests_get BeautifulSoup urljoin
                          base_url url = []).
        { unfold Scraper.page_records, result, Scraper.scrape_category_page, bind.
          unfold Scraper.get_page_html at 1. now rewrite Eh. }
        rewrite Hnone, !app_nil_r. repeat split. lia.
    + unfold after. rewrite (pages_no_address _ _ st Eu).
      exists []. simpl. rewrite !app_nil_r. repeat split. lia.
Qed.

(** X1.  A crawl visits at most [max_pages] listing pages, the first of them
    the start address.  The requests it adds are, page after page, the
    requests of one turn of the loop (the page itself and, when it came with
    a body, the page again for the scan and the links collected from it); the
    records it adds are, page after page, the records of the page, none
    dropped and none merged across pages. *)
Theorem crawl_visits_at_most_max_pages (start_url : string) (max_pages : Z)
  (st : state) :
  exists visited,
    (Z.of_nat (List.length visited) <= Z.max 0 max_pages)%Z
    /\ requests (after (scrape_multiple_pages start_url max_pages) st)
       = requests st ++ flat_map visit_requests visited
    /\ result (scrape_multiple_pages start_url max_pages) st
       = all_products st
         ++ flat_map (Scraper.page_records requests_get BeautifulSoup urljoin
                        base_url) visited
    /\ match visited with
       | [] => True
       | first :: _ => first = start_url
       end.
Proof.
  destruct (pages_visits (Z.to_nat max_pages) (Some start_url) st)
    as (visited & Hl & Hr & _ & _ & Hf & Hp).
  exists visited. split; [lia|].
  unfold Scraper.scrape_multiple_pages, after, result, bind.
  unfold after in Hr, Hp.
  destruct (Scraper.pages _ _ _ _ _ _ st) as [u st']. cbn [fst snd] in *.
  split; [exact Hr|]. split; [exact Hp|].
  destruct visited; [exact I | now injection Hf].
Qed.

(** X2.  Without a page budget ([max_pages] zero or negative) or with an
    empty start address the crawl does nothing: it sends no request and
    returns the records the scraper already holds. *)
Theorem crawl_without_budget_or_address (start_url : string) (max_pages : Z)
  (st : state) :
  (max_pages <= 0)%Z \/ start_url = EmptyString ->
  scrape_multiple_pages start_url max_pages st = (all_products st, st).
Proof.
  intros [H| ->]; unfold Scraper.scrape_multiple_pages, bind.
  - replace (Z.to_nat max_pages) with 0 by lia. reflexivity.
  - now rewrite pages_no_address.
Qed.

(** X3.  When the page at the current address cannot be fetched, or comes
    with an empty body, the crawl ends there: the one request is recorded,
    no record is added and no further address is tried, whatever budget is
    left. *)
Theorem crawl_stops_on_failed_fetch (start_url : string) (max_pages : Z)
  (st : state) :
  start_url <> EmptyString -> (0 < max_pages)%Z ->
  truthy (requests_get start_url) = None ->
  scrape_multiple_pages start_url max_pages st
  = (all_products st,
     mkState (all_products st) (requests st ++ [start_url]) (stdout st) (files st)).
Proof.
  intros Hu Hm Ht. unfold Scraper.scrape_multiple_pages, bind.
  destruct (Z.to_nat max_pages) as [|n] eqn:E; [lia|].
  now rewrite (pages_failed n start_url st Hu Ht).
Qed.

(** X4.  When a page has no next page (no next link with an address and no
    page number in its own address) the loop ends after that page, whatever
    budget is left: its records are added and nothing more is requested. *)
Theorem crawl_stops_without_next_page (remaining : nat) (url html : string)
  (st : state) :
  url <> EmptyString -> truthy (requests_get url) = Some html ->
  get_next_page_url url html = None ->
  pages (S remaining) (Some url) st
  = (tt, mkState
           (all_products st
            ++ result (scrape_category_page url) (after (get_page_html url) st))
           (requests st ++ visit_requests url) (stdout st) (files st)).
Proof.
  intros Hu Ht Hn. rewrite (pages_turn remaining url html st Hu Ht), Hn.
  cbv zeta. now rewrite pages_no_address.
Qed.

End LoopProperties.

(** *** The loop on the sample site *)

Lemma crawl_without_budget_or_address_witness :
  Scraper.scrape_multiple_pages Sample.requests_get Sample.BeautifulSoup
    Sample.urljoin Sample.base_url Sample.sofas_url 0 fresh = ([], fresh)
  /\ Scraper.scrape_multiple_pages Sample.requests_get Sample.BeautifulSoup
       Sample.urljoin Sample.base_url EmptyString 4 fresh = ([], fresh).
Proof.
  split.
  - apply (crawl_without_budget_or_address Sample.requests_get
             Sample.BeautifulSoup Sample.urljoin Sample.base_url
             Sample.sofas_url 0 fresh).
    left. lia.
  - apply (crawl_without_budget_or_address Sample.requests_get
             Sample.BeautifulSoup Sample.urljoin Sample.base_url
             EmptyString 4 fresh).
    right. reflexivity.
Defined.

Lemma crawl_stops_on_failed_fetch_witness :
  let missing := "https://www.jenniferfurniture.com/collections/gone.html" in
  truthy (Sample.requests_get missing) = None
  /\ Scraper.scrape_multiple_pages Sample.requests_get Sample.BeautifulSoup
       Sample.urljoin Sample.base_url missing 4 fresh
     = ([], mkState [] [missing] [] []).
Proof.
  split; [reflexivity|].
  apply (crawl_stops_on_failed_fetch Sample.requests_get Sample.BeautifulSoup
           Sample.urljoin Sample.base_url
           "https://www.jenniferfurniture.com/collections/gone.html" 4 fresh).
  - apply nonempty_by_eqb. reflexivity.
  - lia.
  - reflexivity.
Defined.

Lemma crawl_stops_without_next_page_witness :
  Scraper.get_next_page_url Sample.BeautifulSoup Sample.urljoin Sample.base_url
    Sample.sofas_url Sample.sofas_html = None
  /\ requests (after (Scraper.pages Sample.requests_get Sample.BeautifulSoup
                        Sample.urljoin Sample.base_url 4 (Some Sample.sofas_url))
                 fresh)
     = [Sample.sofas_url; Sample.sofas_url; Sample.alba_url; Sample.cleo_url].
Proof.
  split; [reflexivity|]. unfold after.
  rewrite (crawl_stops_without_next_page Sample.requests_get Sample.BeautifulSoup
             Sample.urljoin Sample.base_url 3 Sample.sofas_url Sample.sofas_html
             fresh).
  - reflexivity.
  - apply nonempty_by_eqb. reflexivity.
  - reflexivity.
  - reflexivity.
Defined.

Lemma scanner_requests_and_records_witness :
  let missing := "https://www.jenniferfurniture.com/collections/gone.html" in
  Scraper.scrape_category_page Sample.requests_get Sample.BeautifulSoup
    Sample.urljoin Sample.base_url missing fresh
  = ([], mkState [] [missing] [] [])
  /\ requests (after (Scraper.scrape_category_page Sample.requests_get
                        Sample.BeautifulSoup Sample.urljoin Sample.base_url
                        Sample.sofas_url) fresh)
     = [Sample.sofas_url; Sample.alba_url; Sample.cleo_url].
Proof.
  split.
  - apply (proj2 (proj2 (scanner_requests_and_records Sample.requests_get
                           Sample.BeautifulSoup Sample.urljoin Sample.base_url
                           "https://www.jenniferfurniture.com/collections/gone.html"
                           fresh))).
    reflexivity.
  - rewrite (proj1 (scanner_requests_and_records Sample.requests_get
                      Sample.BeautifulSoup Sample.urljoin Sample.base_url
                      Sample.sofas_url fresh)).
    reflexivity.
Defined.

(** ** Records, their images and their specifications *)

Lemma keys_set {V : Type} (d : dict V) (k : string) (v : V) :
  Dict.keys (Dict.set d k v)
  = if Dict.mem d k then Dict.keys d else Dict.keys d ++ [k].
Proof.
  unfold Dict.mem, Dict.keys. induction d as [|[k' v'] d IH]; simpl.
  - reflexivity.
  - destruct (String.eqb k' k) eqn:E; simpl.
    + reflexivity.
    + rewrite IH. now destruct (Dict.get d k).
Qed.

Lemma mem_keys {V : Type} (d : dict V) (k : string) :
  Dict.mem d k = true <-> In k (Dict.keys d).
Proof.
  unfold Dict.mem, Dict.keys. induction d as [|[k' v'] d IH]; simpl.
  - split; [discriminate | tauto].
  - destruct (String.eqb k' k) eqn:E.
    + apply String.eqb_eq in E. tauto.
    + rewrite IH. split; [tauto|]. intros [H|H]; [|exact H].
      subst k'. now rewrite String.eqb_refl in E.
Qed.

Lemma keys_set_NoDup {V : Type} (d : dict V) (k : string) (v : V) :
  NoDup (Dict.keys d) -> NoDup (Dict.keys (Dict.set d k v)).
Proof.
  intros H. rewrite keys_set. destruct (Dict.mem d k) eqn:E; [exact H|].
  apply NoDup_app; [exact H | repeat constructor; simpl; tauto |].
  intros x Hx [<-|[]]. apply mem_keys in Hx. congruence.
Qed.

Section RecordProperties.
Import Bs4 Fields.
Variable urljoin : string -> string -> string.
Variable base_url : string.

(** X5.  Whatever the page, the record has exactly the eight keys title,
    price, original_price, sku, description, images, specifications and url,
    in this order; url is the address the page was asked under; images is a
    list, specifications a mapping and the other six are strings. *)
Theorem record_layout (soup : Soup) (product_url : string) :
  let product := product_of urljoin base_url soup product_url in
  Dict.keys product
  = ["title"; "price"; "original_price"; "sku"; "description"; "images";
     "specifications"; "url"]
  /\ Dict.get product "url" = Some (VStr product_url)
  /\ (exists t p o k d,
         Dict.get product "title" = Some (VStr t)
         /\ Dict.get product "price" = Some (VStr p)
         /\ Dict.get product "original_price" = Some (VStr o)
         /\ Dict.get product "sku" = Some (VStr k)
         /\ Dict.get product "description" = Some (VStr d))
  /\ (exists images, Dict.get product "images" = Some (VList images))
  /\ (exists specs, Dict.get product "specifications" = Some (VDict specs)).
Proof.
  intros product. subst product. rewrite product_of_shape.
  assert (Ht : exists t, title_value soup = VStr t).
  { unfold title_value. destruct (hit _ _); [eauto|].
    destruct (find_all soup "h1"); unfold NA; eauto. }
  assert (Hp : exists p, price_value soup = VStr p).
  { unfold price_value. destruct (hit _ _); [eauto|].
    destruct (Re.findall _ _); unfold NA; eauto. }
  assert (Ho : exists o, original_price_value soup = VStr o).
  { unfold original_price_value. destruct (hit _ _); eauto. }
  assert (Hk : exists k, sku_value soup = VStr k).
  { unfold sku_value. destruct (hit _ _); [eauto|].
    destruct (Re.findall _ _); unfold NA; eauto. }
  assert (Hd : exists d, description_value soup = VStr d).
  { unfold description_value. destruct (hit _ _); [eauto|].
    destruct (find_meta soup "description"); [|unfold NA; eauto].
    destruct (truthy _); unfold NA; eauto. }
  destruct Ht as [t Ht], Hp as [p Hp], Ho as [o Ho], Hk as [k Hk], Hd as [d Hd].
  split; [reflexivity|]. split; [reflexivity|]. split.
  - exists t, p, o, k, d. cbn. rewrite Ht, Hp, Ho, Hk, Hd. repeat split.
  - split; cbn; eauto.
Qed.

Lemma image_urls_In (x : string) (imgs : list Tag) :
  In x (image_urls urljoin base_url imgs) ->
  exists img u, In img imgs /\ img_url img = Some u /\ x = urljoin base_url u.
Proof.
  induction imgs as [|img imgs IH]; simpl; [tauto|].
  destruct (img_url img) as [u|] eqn:E.
  - intros [<-|H].
    + exists img, u. auto.
    + destruct (IH H) as (i & v & Hi & Hv & Hx). exists i, v. auto.
  - intros H. destruct (IH H) as (i & v & Hi & Hv & Hx). exists i, v. auto.
Qed.

Lemma product_image_urls_In (x : string) (imgs : list Tag) :
  In x (product_image_urls urljoin base_url imgs) ->
  exists img u,
    In img imgs /\ img_url img = Some u /\ x = urljoin base_url u
    /\ Str.contains "product" (Str.lower u) || Str.contains "item" (Str.lower u)
       = true.
Proof.
  induction imgs as [|img imgs IH]; simpl; [tauto|].
  assert (Hrest : In x (product_image_urls urljoin base_url imgs) ->
                  exists img0 u,
                    (img = img0 \/ In img0 imgs) /\ img_url img0 = Some u
                    /\ x = urljoin base_url u
                    /\ Str.contains "product" (Str.lower u)
                       || Str.contains "item" (Str.lower u) = true).
  { intros H. destruct (IH H) as (i & v & Hi & Hv & Hx & Hc). exists i, v. auto. }
  destruct (img_url img) as [u|] eqn:E; [|exact Hrest].
  destruct (Str.contains "product" (Str.lower u)
            || Str.contains "item" (Str.lower u)) eqn:Ec; [|exact Hrest].
  intros [<-|H]; [|auto]. exists img, u. auto.
Qed.

Lemma img_url_nonempty (img : Tag) (u : string) :
  img_url img = Some u ->
  u <> EmptyString
  /\ (truthy (get img "src") = Some u
      \/ truthy (get img "src") = None /\ get img "data-src" = Some u).
Proof.
  unfold img_url, str_or. intros H.
  destruct (truthy_some _ _ H) as [H' Hu]. split; [exact Hu|].
  destruct (truthy (get img "src")) as [s|].
  - left. congruence.
  - right. auto.
Qed.

Lemma image_urls_of (imgs : list Tag) (img : Tag) (u : string) :
  In img imgs -> img_url img = Some u ->
  In (urljoin base_url u) (image_urls urljoin base_url imgs).
Proof.
  induction imgs as [|i imgs IH]; simpl; [tauto|].
  intros [->|Hin] Hu.
  - rewrite Hu. now left.
  - destruct (img_url i); [right|]; auto.
Qed.

Lemma img_url_of (img : Tag) (u : string) :
  u <> EmptyString ->
  truthy (get img "src") = Some u
  \/ truthy (get img "src") = None /\ get img "data-src" = Some u ->
  img_url img = Some u.
Proof.
  unfold img_url, str_or. intros Hu [H|[H H']]; rewrite H.
  - now apply truthy_nonempty.
  - rewrite H'. now apply truthy_nonempty.
Qed.

(** X9.  Every address under images is a resolved one, and it comes from an
    image element the code looked at: it is [urljoin] of the base address
    and the non-empty [src] of that element or, when the element has no
    non-empty [src], its non-empty [data-src]; the element is one of those
    matched by the image selector at which the loop stopped or, when no
    image selector gave an address, an [img] element of the page whose
    address mentions "product" or "item", in whatever case.  Conversely,
    every element matched by the selector at which the loop stopped that has
    such an address contributes it. *)
Theorem images_are_resolved_addresses (soup : Soup) :
  (forall x,
      In x (images_value urljoin base_url soup) ->
      exists img u,
        x = urljoin base_url u /\ u <> EmptyString
        /\ (truthy (get img "src") = Some u
            \/ truthy (get img "src") = None /\ get img "data-src" = Some u)
        /\ ((exists selector,
                In selector image_selectors
                /\ hit (fun s => nonempty (soup_select soup s)) image_selectors
                   = Some (soup_select soup selector)
                /\ In img (soup_select soup selector))
            \/ (located_images urljoin base_url soup = []
                /\ In img (find_all soup "img")
                /\ Str.contains "product" (Str.lower u)
                   || Str.contains "item" (Str.lower u) = true)))
  /\ (forall elems img u,
      hit (fun s => nonempty (soup_select soup s)) image_selectors = Some elems ->
      In img elems -> u <> EmptyString ->
      truthy (get img "src") = Some u
      \/ truthy (get img "src") = None /\ get img "data-src" = Some u ->
      In (urljoin base_url u) (images_value urljoin base_url soup)).
Proof.
  split.
  - intros x. unfold images_value.
    destruct (located_images urljoin base_url soup) as [|y ys] eqn:E.
    + intros H.
      destruct (product_image_urls_In _ _ H) as (img & u & Hi & Hu & Hx & Hc).
      destruct (img_url_nonempty _ _ Hu) as [Hne Hsrc].
      exists img, u. repeat split; auto.
    + intros H. unfold located_images in E.
      destruct (hit (fun s => nonempty (soup_select soup s)) image_selectors)
        as [elems|] eqn:Eh; [|discriminate].
      rewrite <- E in H.
      destruct (image_urls_In _ _ H) as (img & u & Hi & Hu & Hx).
      destruct (img_url_nonempty _ _ Hu) as [Hne Hsrc].
      destruct (hit_some _ _ _ Eh) as (selector & Hsel & Hq).
      assert (Helems : elems = soup_select soup selector).
      { unfold nonempty in Hq. destruct (soup_select soup selector);
          [discriminate | congruence]. }
      exists img, u. repeat split; auto. left. exists selector.
      rewrite <- Helems. auto.
  - intros elems img u Eh Hin Hu Hsrc. unfold images_value, located_images.
    rewrite Eh.
    pose proof (image_urls_of elems img u Hin (img_url_of img u Hu Hsrc)) as H.
    destruct (image_urls urljoin base_url elems); [destruct H | exact H].
Qed.

Lemma spec_rows_app (rows1 rows2 : list Tag) (specs : dict string) :
  spec_rows (rows1 ++ rows2) specs = spec_rows rows2 (spec_rows rows1 specs).
Proof.
  revert specs. induction rows1 as [|r rows1 IH]; intros specs; simpl; auto.
  destruct (name_elem r), (value_elem r); auto.
Qed.

Lemma spec_rows_NoDup (rows : list Tag) (specs : dict string) :
  NoDup (Dict.keys specs) -> NoDup (Dict.keys (spec_rows rows specs)).
Proof.
  revert specs. induction rows as [|r rows IH]; intros specs H; simpl; auto.
  destruct (name_elem r), (value_elem r); auto.
  apply IH. now apply keys_set_NoDup.
Qed.

(** X8.  The specifications read from the rows of a match have each name
    once; a row that lacks its name element or its value element leaves
    them as they are; and a row that has both binds its stripped name to its
    stripped value, replacing what an earlier row bound it to, so that the
    last such row decides. *)
Theorem specification_rows (rows : list Tag) (row : Tag) :
  NoDup (Dict.keys (spec_rows rows []))
  /\ (name_elem row = None \/ value_elem row = None ->
      spec_rows (rows ++ [row]) [] = spec_rows rows [])
  /\ (forall n v, name_elem row = Some n -> value_elem row = Some v ->
      Dict.get (spec_rows (rows ++ [row]) []) (stripped n) = Some (stripped v)
      /\ forall k, k <> stripped n ->
           Dict.get (spec_rows (rows ++ [row]) []) k
           = Dict.get (spec_rows rows []) k).
Proof.
  split; [apply spec_rows_NoDup; constructor|]. split.
  - intros H. rewrite spec_rows_app. simpl.
    destruct H as [-> | H]; [reflexivity|].
    rewrite H. now destruct (name_elem row).
  - intros n v Hn Hv. rewrite spec_rows_app. simpl. rewrite Hn, Hv. split.
    + apply get_set_same.
    + intros k Hk. apply get_set_other. congruence.
Qed.

End RecordProperties.

Lemma specification_rows_witness :
  let heading :=
    Sample.element "div" "Colour" [] [("strong", [Sample.alba_name_cell])] in
  let pine := Sample.element "span" " Pine " [] [] in
  let second :=
    Sample.element "div" "Material Pine " []
      [("div.col-sm-4", [Sample.alba_name_cell]); ("span", [pine])] in
  Fields.value_elem heading = None
  /\ Fields.spec_rows [Sample.alba_row; heading] [] = [("Material", "Oak")]
  /\ Dict.get (Fields.spec_rows [Sample.alba_row; second] []) "Material"
     = Some "Pine".
Proof.
  intros heading pine second.
  destruct (specification_rows [Sample.alba_row] heading) as (_ & Hskip & _).
  destruct (specification_rows [Sample.alba_row] second) as (_ & _ & Hset).
  split; [reflexivity|]. split.
  - change [Sample.alba_row; heading] with ([Sample.alba_row] ++ [heading]).
    rewrite Hskip; [reflexivity | right; reflexivity].
  - exact (proj1 (Hset Sample.alba_name_cell pine eq_refl eq_refl)).
Defined.

Lemma images_are_resolved_addresses_witness :
  (exists img u,
      "https://cdn.example.com/product-2.jpg" = Sample.urljoin Sample.base_url u
      /\ u <> EmptyString
      /\ (truthy (Bs4.get img "src") = Some u
          \/ truthy (Bs4.get img "src") = None /\ Bs4.get img "data-src" = Some u)
      /\ ((exists selector,
              In selector Fields.image_selectors
              /\ hit (fun s => nonempty (Bs4.soup_select Sample.cara s))
                   Fields.image_selectors
                 = Some (Bs4.soup_select Sample.cara selector)
              /\ In img (Bs4.soup_select Sample.cara selector))
          \/ (Fields.located_images Sample.urljoin Sample.base_url Sample.cara = []
              /\ In img (Bs4.find_all Sample.cara "img")
              /\ Str.contains "product" (Str.lower u)
                 || Str.contains "item" (Str.lower u) = true)))
  /\ In "https://www.jenniferfurniture.com/img/alba.jpg"
       (Fields.images_value Sample.urljoin Sample.base_url Sample.alba).
Proof.
  split.
  - apply (proj1 (images_are_resolved_addresses Sample.urljoin Sample.base_url
                    Sample.cara)).
    left. reflexivity.
  - apply (proj2 (images_are_resolved_addresses Sample.urljoin Sample.base_url
                    Sample.alba) [Sample.alba_img] Sample.alba_img
             "https://www.jenniferfurniture.com/img/alba.jpg").
    + reflexivity.
    + left. reflexivity.
    + discriminate.
    + left. reflexivity.
Defined.

(** ** The links of a listing page and the next page *)

Lemma hit_after_none {A : Type} (query : string -> option A)
  (pre : list string) (s : string) (post : list string) (a : A) :
  (forall s', In s' pre -> query s' = None) -> query s = Some a ->
  hit query (pre ++ s :: post) = Some a.
Proof.
  induction pre as [|p pre IH]; intros Hpre Hs; simpl app.
  - now rewrite hit_cons, Hs.
  - rewrite hit_cons, (Hpre p (or_introl eq_refl)).
    apply IH; [|exact Hs]. intros s' Hs'. apply Hpre. now right.
Qed.

Section LinkProperties.
Import Bs4 Listing.
Variable urljoin : string -> string -> string.
Variable base_url : string.

Lemma card_href_nonempty (card : Tag) (href : string) :
  card_href card = Some href -> href <> EmptyString.
Proof.
  unfold card_href.
  destruct (if String.eqb (name card) "a" then truthy (get card "href") else None)
    as [h|] eqn:E.
  - intros [= <-]. destruct (String.eqb (name card) "a"); [|discriminate].
    now destruct (truthy_some _ _ E).
  - intros H. destruct (hit_some _ _ _ H) as (s & _ & Hs).
    unfold with_href in Hs. destruct (select_one card s); [|discriminate].
    now destruct (truthy_some _ _ Hs).
Qed.

Lemma card_urls_In (x : string) (cards : list Tag) :
  In x (card_urls urljoin base_url cards) ->
  exists card href,
    In card cards /\ card_href card = Some href /\ x = urljoin base_url href.
Proof.
  induction cards as [|card cards IH]; simpl; [tauto|].
  destruct (card_href card) as [href|] eqn:E.
  - intros [<-|H].
    + exists card, href. auto.
    + destruct (IH H) as (c & h & Hc & Hh & Hx). exists c, h. auto.
  - intros H. destruct (IH H) as (c & h & Hc & Hh & Hx). exists c, h. auto.
Qed.

Lemma anchor_urls_In (x : string) (anchors : list Tag) :
  In x (anchor_urls urljoin base_url anchors) ->
  exists anchor href,
    In anchor anchors /\ truthy (get anchor "href") = Some href
    /\ Str.contains "product" href || Str.contains "/p/" href = true
    /\ x = urljoin base_url href.
Proof.
  induction anchors as [|anchor anchors IH]; simpl; [tauto|].
  assert (Hrest : In x (anchor_urls urljoin base_url anchors) ->
                  exists anchor0 href,
                    (anchor = anchor0 \/ In anchor0 anchors)
                    /\ truthy (get anchor0 "href") = Some href
                    /\ Str.contains "product" href || Str.contains "/p/" href = true
                    /\ x = urljoin base_url href).
  { intros H. destruct (IH H) as (c & h & Hc & Hh & Hp & Hx). exists c, h. auto. }
  destruct (truthy (get anchor "href")) as [href|] eqn:E; [|exact Hrest].
  destruct (Str.contains "product" href || Str.contains "/p/" href) eqn:Ec;
    [|exact Hrest].
  intros [<-|H]; [|auto]. exists anchor, href. auto.
Qed.

(** X7.  Every link collected from a listing page is a resolved address:
    [urljoin] of the base address and a non-empty [href], taken either from
    a product card or, when the cards give no link at all, from an anchor of
    the page whose [href] mentions "product" or "/p/". *)
Theorem collected_links_are_resolved_hrefs (soup : Soup) (link : string) :
  In link (product_links urljoin base_url soup) ->
  exists href,
    href <> EmptyString /\ link = urljoin base_url href
    /\ ((exists card, In card (product_cards soup) /\ card_href card = Some href)
        \/ (card_urls urljoin base_url (product_cards soup) = []
            /\ exists anchor,
                In anchor (find_all soup "a") /\ get anchor "href" = Some href
                /\ Str.contains "product" href || Str.contains "/p/" href = true)).
Proof.
  destruct (product_links_first_occurrences urljoin base_url soup) as [_ ->].
  destruct (first_occurrences (card_urls urljoin base_url (product_cards soup)))
    as [|y ys] eqn:E.
  - intros H. apply (proj1 (first_occurrences_In _ _)) in H.
    destruct (anchor_urls_In _ _ H) as (anchor & href & Ha & Hh & Hc & Hx).
    destruct (truthy_some _ _ Hh) as [Hg Hne].
    exists href. split; [exact Hne|]. split; [exact Hx|]. right. split.
    + destruct (card_urls urljoin base_url (product_cards soup)); [reflexivity|].
      discriminate.
    + exists anchor. auto.
  - intros H. rewrite <- E in H. apply (proj1 (first_occurrences_In _ _)) in H.
    destruct (card_urls_In _ _ H) as (card & href & Hc & Hh & Hx).
    exists href. split; [eapply card_href_nonempty; eauto|].
    split; [exact Hx|]. left. exists card. auto.
Qed.

(** X10.  A next link decides the next page before anything else: the first
    next-link selector whose element has a non-empty [href] gives the next
    address, resolved against the base address, whatever the address of the
    current page and whether or not it carries a page number; selectors whose
    element is missing, or has no [href], are passed over. *)
Theorem next_link_takes_precedence (url : string) (soup : Soup)
  (passed : list string) (selector : string) (later : list string)
  (href : string) :
  Pagination.next_link_selectors = passed ++ selector :: later ->
  (forall s, In s passed -> with_href (Pagination.next_link soup s) = None) ->
  with_href (Pagination.next_link soup selector) = Some href ->
  Pagination.next_page_url urljoin base_url url soup
  = Some (urljoin base_url href).
Proof.
  intros Hsplit Hpassed Hsel. unfold Pagination.next_page_url. rewrite Hsplit.
  now rewrite (hit_after_none _ passed selector later href Hpassed Hsel).
Qed.

End LinkProperties.

Lemma collected_links_are_resolved_hrefs_witness :
  In Sample.cleo_url
    (Listing.product_links Sample.urljoin Sample.base_url Sample.sofas)
  /\ exists href,
      href <> EmptyString /\ Sample.cleo_url = Sample.urljoin Sample.base_url href
      /\ ((exists card, In card (Listing.product_cards Sample.sofas)
                        /\ Listing.card_href card = Some href)
          \/ (Listing.card_urls Sample.urljoin Sample.base_url
                (Listing.product_cards Sample.sofas) = []
              /\ exists anchor,
                  In anchor (Bs4.find_all Sample.sofas "a")
                  /\ Bs4.get anchor "href" = Some href
                  /\ Str.contains "product" href || Str.contains "/p/" href = true)).
Proof.
  split; [right; left; reflexivity|].
  apply (collected_links_are_resolved_hrefs Sample.urljoin Sample.base_url
           Sample.sofas Sample.cleo_url).
  right. left. reflexivity.
Defined.

Lemma next_link_takes_precedence_witness :
  Pagination.next_page_url Sample.urljoin Sample.base_url
    "https://www.jenniferfurniture.com/collections/beds.html?page=7" Sample.beds
  = Some Sample.beds_url.
Proof.
  apply (next_link_takes_precedence Sample.urljoin Sample.base_url
           "https://www.jenniferfurniture.com/collections/beds.html?page=7"
           Sample.beds
           [ "ul.pagination li.active + li a"; ".pagination .next a";
             "a.pagination__next"; ("a[rel=" ++ quoted "next" ++ "]")%string;
             ".next-page a"; ".pagination-next a" ]
           "a.next"
           [ "a.next-page"; ".pagination .next";
             (".pagination a" ++ Pagination.contains_next)%string;
             ("a" ++ Pagination.contains_next)%string ]
           Sample.beds_url).
  - reflexivity.
  - each_selector.
  - reflexivity.
Defined.

(** ** The numbered-page rule *)

Lemma no_match_in_sound {R : Type} (match_at : string -> option (nat * R))
  (pre rest : string) :
  Re.no_match_in match_at pre rest = true -> Re.none_within match_at pre rest.
Proof.
  induction pre as [|c pre IH]; intros H a b E Hb.
  - destruct a; [|discriminate]. simpl in E. now subst b.
  - simpl in H.
    destruct (match_at (String c (pre ++ rest))) eqn:Em; [discriminate|].
    destruct a as [|c' a]; simpl in E.
    + subst b. exact Em.
    + injection E as <- E. now apply (IH H a b).
Qed.

Lemma numbered_next_single_witness :
  Pagination.numbered_next
    "https://www.jenniferfurniture.com/collections/sofas?sort=new&page=009&view=24"
  = Some "https://www.jenniferfurniture.com/collections/sofas?sort=new&page=10&view=24".
Proof.
  apply (numbered_next_single
           "https://www.jenniferfurniture.com/collections/sofas?sort=new&"
           "009" "&view=24").
  - discriminate.
  - reflexivity.
  - reflexivity.
  - apply no_match_in_sound. reflexivity.
  - apply no_match_in_sound. reflexivity.
Defined.

(** *** [int] and [str] on page numbers *)

Lemma int_from_app (acc : N) (a b : string) :
  Str.int_from acc (a ++ b)%string = Str.int_from (Str.int_from acc a) b.
Proof. revert acc. induction a as [|c a IH]; intros acc; simpl; auto. Qed.

Lemma int_from_ge (acc : N) (s : string) : (acc <= Str.int_from acc s)%N.
Proof.
  revert acc. induction s as [|c s IH]; intros acc; simpl; [lia|].
  etransitivity; [|apply IH]. lia.
Qed.

Lemma int_from_digits (d acc : Decimal.uint) :
  Str.int_from (DecimalPos.Unsigned.of_lu acc) (NilEmpty.string_of_uint d)
  = DecimalPos.Unsigned.of_lu (Decimal.revapp d acc).
Proof.
  revert acc. induction d as [|d IH|d IH|d IH|d IH|d IH|d IH|d IH|d IH|d IH|d IH];
    intros acc; [reflexivity|..];
    cbn [NilEmpty.string_of_uint Str.int_from Decimal.revapp]; rewrite <- IH;
    f_equal; cbn [DecimalPos.Unsigned.of_lu]; cbn [N_of_ascii N_of_digits]; lia.
Qed.

(** [int(str(n)) == n] *)
Lemma int_of_N (n : N) : Str.int (Str.of_N n) = n.
Proof.
  unfold Str.int, Str.of_N.
  change 0%N with (DecimalPos.Unsigned.of_lu Decimal.Nil).
  rewrite int_from_digits.
  change (Decimal.revapp (N.to_uint n) Decimal.Nil) with (Decimal.rev (N.to_uint n)).
  rewrite <- DecimalPos.Unsigned.of_uint_alt.
  apply DecimalN.Unsigned.of_to.
Qed.

Lemma digits_of_uint (d : Decimal.uint) :
  Str.all Str.isdigit (NilEmpty.string_of_uint d) = true.
Proof. induction d; simpl; auto. Qed.

Lemma digits_of_N (n : N) : Str.all Str.isdigit (Str.of_N n) = true.
Proof. apply digits_of_uint. Qed.

(** *** The rule never proposes the page it is on *)

Lemma append_inv_head (pre a b : string) :
  (pre ++ a)%string = (pre ++ b)%string -> a = b.
Proof. induction pre as [|c pre IH]; simpl; intros H; [exact H|]. injection H. exact IH. Qed.

Lemma append_split (a b x y : string) :
  (a ++ x)%string = (b ++ y)%string ->
  (exists e, b = (a ++ e)%string /\ x = (e ++ y)%string)
  \/ (exists c e, a = (b ++ String c e)%string /\ y = (String c e ++ x)%string).
Proof.
  revert b. induction a as [|c a IH]; intros b H; simpl in H.
  - left. exists b. auto.
  - destruct b as [|c' b]; simpl in H.
    + right. exists c, a. auto.
    + injection H as -> H. destruct (IH b H) as [(e & -> & ->)|(c0 & e & -> & ->)].
      * left. exists e. auto.
      * right. exists c0, e. auto.
Qed.

Lemma all_app (p : ascii -> bool) (a b : string) :
  Str.all p (a ++ b)%string = Str.all p a && Str.all p b.
Proof. induction a as [|c a IH]; simpl; [reflexivity|]. now rewrite IH, andb_assoc. Qed.

Lemma span_inv (p : ascii -> bool) (s a b : string) :
  Str.span p s = (a, b) ->
  s = (a ++ b)%string /\ Str.all p a = true /\ fst (Str.span p b) = EmptyString.
Proof.
  revert a b. induction s as [|c s IH]; intros a b; simpl.
  - intros [= <- <-]. auto.
  - destruct (p c) eqn:E.
    + destruct (Str.span p s) as [a' b'] eqn:Es. intros [= <- <-].
      destruct (IH a' b' eq_refl) as (-> & Ha & Hb). simpl. rewrite E. auto.
    + intros [= <- <-]. simpl. rewrite E. auto.
Qed.

Lemma drop_prefix_inv (p s r : string) :
  Str.drop_prefix p s = Some r -> s = (p ++ r)%string.
Proof.
  revert s. induction p as [|c p IH]; intros s; simpl.
  - now intros [= ->].
  - destruct s as [|c' s]; [discriminate|].
    destruct (Ascii.eqb c c') eqn:E; [|discriminate].
    apply Ascii.eqb_eq in E. subst c'. intros H. now rewrite (IH s H).
Qed.

Lemma page_at_inv (s : string) (n : nat) (digits : string) :
  Re.page_at s = Some (n, digits) ->
  exists post,
    s = ("page=" ++ digits ++ post)%string /\ digits <> EmptyString
    /\ Str.all Str.isdigit digits = true
    /\ fst (Str.span Str.isdigit post) = EmptyString
    /\ n = 5 + String.length digits.
Proof.
  unfold Re.page_at. destruct (Str.drop_prefix "page=" s) as [r|] eqn:E;
    [|discriminate].
  apply drop_prefix_inv in E. subst s.
  destruct (Str.span Str.isdigit r) as [ds post] eqn:Es.
  destruct (span_inv _ _ _ _ Es) as (-> & Hd & Hp).
  destruct ds as [|d ds]; [discriminate|]. intros [= <- <-].
  exists post. repeat split; auto. discriminate.
Qed.

Lemma some_eq {A : Type} (a b : A) : Some a = Some b -> a = b.
Proof. now intros [= ->]. Qed.

Lemma sub_at_match {R : Type} (match_at : string -> option (nat * R))
  (repl : string) (c : ascii) (s : string) (n : nat) (r : R) :
  match_at (String c s) = Some (n, r) ->
  Re.sub_from match_at repl 0 (String c s)
  = (repl ++ Re.sub_from match_at repl (Nat.pred n) s)%string.
Proof. intros H. cbn [Re.sub_from]. now rewrite H. Qed.

Lemma search_decompose {R : Type} (match_at : string -> option (nat * R))
  (s : string) (r : R) :
  Re.search match_at s = Some r ->
  exists pre rest n,
    s = (pre ++ rest)%string /\ Re.none_within match_at pre rest
    /\ match_at rest = Some (n, r).
Proof.
  induction s as [|c s IH]; simpl.
  - destruct (match_at EmptyString) as [[n r']|] eqn:E; [|discriminate].
    intros [= ->]. exists EmptyString, EmptyString, n.
    split; [reflexivity|]. split; [apply none_within_empty | exact E].
  - destruct (match_at (String c s)) as [[n r']|] eqn:E.
    + intros [= ->]. exists EmptyString, (String c s), n.
      split; [reflexivity|]. split; [apply none_within_empty | exact E].
    + intros H. destruct (IH H) as (pre & rest & n & -> & Hn & Hm).
      exists (String c pre), rest, n. split; [reflexivity|]. split; [|exact Hm].
      intros a b Eab Hb. destruct a as [|c' a]; simpl in Eab.
      * subst b. exact E.
      * injection Eab as <- Eab. now apply (Hn a b).
Qed.

(** X12.  The numbered-page rule never proposes the address it was given:
    the address it returns differs from the current one, so the loop guard
    of the crawl is never set off by this rule and numbered pages are
    followed until the page budget is used up or a page cannot be fetched. *)
Theorem numbered_rule_moves_on (url : string) :
  Pagination.numbered_next url <> Some url.
Proof.
  unfold Pagination.numbered_next.
  destruct (Re.search Re.page_at url) as [ds|] eqn:Es; [|discriminate].
  destruct (search_decompose _ _ _ Es) as (pre & rest & n & -> & Hpre & Hat).
  destruct (page_at_inv _ _ _ Hat) as (post & -> & Hne & Hd & Hp & ->).
  set (nd := Str.of_N (Str.int ds + 1)).
  unfold Re.sub. rewrite (sub_after _ _ _ _ Hpre).
  intros H. apply some_eq in H. apply append_inv_head in H.
  change ("page=" ++ ds ++ post)%string
    with (String "p" ("age=" ++ ds ++ post)%string) in *.
  rewrite (sub_at_match _ _ _ _ _ _ Hat) in H.
  remember (Re.sub_from Re.page_at ("page=" ++ nd) _ _) as x eqn:Ex. clear Ex.
  simpl in H. injection H as H.
  destruct (append_split _ _ _ _ H) as [(e & E & _)|(c & e & E & Epost)].
  - assert (Hi : Str.int ds = Str.int_from (Str.int nd) e).
    { rewrite E. unfold Str.int. apply int_from_app. }
    pose proof (int_from_ge (Str.int nd) e) as Hge.
    unfold nd in Hi, Hge. rewrite int_of_N in Hi, Hge. lia.
  - pose proof (digits_of_N (Str.int ds + 1)) as Hnd. fold nd in Hnd.
    rewrite E, all_app in Hnd. apply andb_true_iff in Hnd as [_ Hc].
    simpl in Hc. apply andb_true_iff in Hc as [Hc _].
    rewrite Epost in Hp. simpl in Hp. rewrite Hc in Hp.
    destruct (Str.span Str.isdigit (e ++ _)). discriminate.
Qed.

(** ** The CSV export *)

(** *** [sorted(set(...))] *)

Lemma ascii_compare_lt_trans (a b c : ascii) :
  Ascii.compare a b = Lt -> Ascii.compare b c = Lt -> Ascii.compare a c = Lt.
Proof.
  unfold Ascii.compare. rewrite !N.compare_lt_iff. lia.
Qed.

Lemma string_compare_lt_trans (x y z : string) :
  String.compare x y = Lt -> String.compare y z = Lt -> String.compare x z = Lt.
Proof.
  revert y z. induction x as [|a x IH]; intros [|b y] [|c z]; simpl;
    try discriminate; auto.
  destruct (Ascii.compare a b) eqn:Eab; try discriminate;
    destruct (Ascii.compare b c) eqn:Ebc; try discriminate.
  - apply Ascii.compare_eq_iff in Eab, Ebc. subst b c.
    assert (E : Ascii.compare a a = Eq)
      by (unfold Ascii.compare; apply N.compare_refl).
    rewrite E. apply IH.
  - apply Ascii.compare_eq_iff in Eab. subst b. now rewrite Ebc.
  - apply Ascii.compare_eq_iff in Ebc. subst c. now rewrite Eab.
  - now rewrite (ascii_compare_lt_trans _ _ _ Eab Ebc).
Qed.

Lemma string_compare_refl (x : string) : String.compare x x = Eq.
Proof.
  pose proof (String.compare_antisym x x) as H.
  destruct (String.compare x x); simpl in H; congruence.
Qed.

Lemma insert_sorted_In (x z : string) (l : list string) :
  In z (Str.insert_sorted x l) <-> z = x \/ In z l.
Proof.
  induction l as [|y l IH]; simpl.
  - split; intros [H|H]; auto.
  - destruct (String.compare x y) eqn:E; simpl.
    + apply String.compare_eq_iff in E. subst y. split; [auto|].
      intros [->|H]; auto.
    + split; intros [H|H]; auto.
    + rewrite IH. split; intros H; tauto.
Qed.

(** Strictly increasing by code points. *)
Local Abbreviation increasing :=
  (StronglySorted (fun a b => String.compare a b = Lt)).

Lemma insert_sorted_increasing (x : string) (l : list string) :
  increasing l -> increasing (Str.insert_sorted x l).
Proof.
  induction 1 as [|y l Hl IH Hy]; simpl.
  - repeat constructor.
  - destruct (String.compare x y) eqn:E.
    + now constructor.
    + constructor; [now constructor|]. constructor; [exact E|].
      rewrite Forall_forall in *. intros z Hz.
      eapply string_compare_lt_trans; eauto.
    + constructor; [exact IH|]. rewrite Forall_forall in *. intros z Hz.
      apply insert_sorted_In in Hz. destruct Hz as [->|Hz]; [|auto].
      rewrite String.compare_antisym, E. reflexivity.
Qed.

Lemma sorted_set_spec (items : list string) :
  increasing (Str.sorted_set items)
  /\ forall z, In z (Str.sorted_set items) <-> In z items.
Proof.
  unfold Str.sorted_set.
  assert (H : forall acc,
             increasing acc ->
             increasing (fold_left (fun acc x => Str.insert_sorted x acc) items acc)
             /\ forall z,
                 In z (fold_left (fun acc x => Str.insert_sorted x acc) items acc)
                 <-> In z acc \/ In z items).
  { induction items as [|x items IH]; intros acc Hacc; simpl.
    - split; [exact Hacc | tauto].
    - destruct (IH _ (insert_sorted_increasing x acc Hacc)) as [Hs Hin].
      split; [exact Hs|]. intros z. rewrite Hin, insert_sorted_In.
      intuition (subst; auto). }
  destruct (H [] (SSorted_nil _)) as [Hs Hin]. split; [exact Hs|].
  intros z. rewrite Hin. simpl. tauto.
Qed.

Lemma increasing_NoDup (l : list string) : increasing l -> NoDup l.
Proof.
  induction 1 as [|y l Hl IH Hy]; constructor; [|exact IH].
  intros Hin. rewrite Forall_forall in Hy. specialize (Hy y Hin).
  now rewrite string_compare_refl in Hy.
Qed.

(** *** The header and the rows *)

Lemma spec_fields_In (products : list Product) (fields : list string) :
  Scraper.spec_fields products = Some fields ->
  forall c, In c fields <->
            exists product entries k,
              In product products
              /\ Scraper.specifications_of product = Some entries
              /\ In k (Dict.keys entries) /\ c = ("spec_" ++ k)%string.
Proof.
  revert fields. induction products as [|p ps IH]; intros fields; simpl.
  - intros [= <-] c. split; [intros [] | intros (? & ? & ? & [] & _)].
  - destruct (Scraper.specifications_of p) as [entries|] eqn:Ep; [|discriminate].
    destruct (Scraper.spec_fields ps) as [fs|]; [|discriminate].
    intros [= <-] c. rewrite in_app_iff, in_map_iff, (IH fs eq_refl c). split.
    + intros [(k & <- & Hk)|(q & es & k & Hq & Hs & Hk & Hc)].
      * exists p, entries, k. auto.
      * exists q, es, k. auto.
    + intros (q & es & k & [<-|Hq] & Hs & Hk & Hc).
      * left. exists k. split; [now subst c | congruence].
      * right. exists q, es, k. auto.
Qed.

Lemma rows_layout (fieldnames : list string) (products : list Product)
  (rs : list (list value)) :
  Scraper.rows fieldnames products = Some rs ->
  Forall2 (fun product row =>
             exists entries,
               Scraper.specifications_of product = Some entries
               /\ row = Scraper.cells fieldnames (Scraper.row_of product entries))
    products rs.
Proof.
  revert rs. induction products as [|p ps IH]; intros rs; simpl.
  - intros [= <-]. constructor.
  - destruct (Scraper.specifications_of p) as [entries|] eqn:Ep; [|discriminate].
    destruct (Scraper.rows fieldnames ps) as [rs'|]; [|discriminate].
    intros [= <-]. constructor; [eauto | now apply IH].
Qed.

Lemma spec_column_not_leading (k : string) :
  ~ In ("spec_" ++ k)%string (Scraper.leading_columns ++ ["images"]).
Proof.
  simpl. intros H.
  repeat (destruct H as [H|H]; [discriminate H|]). exact H.
Qed.

(** X13.  When the CSV export writes its file, the header is the six leading
    columns, then one column [spec_<name>] for every specification name of
    every record, each once and in increasing order of code points, then
    [images]; no column occurs twice; and there is one row per record, in the
    order of the records, with one cell per column. *)
Theorem csv_layout (filename : string) (st st' : state) :
  Scraper.save_to_csv filename st = Some st' -> all_products st <> [] ->
  exists spec_columns rs,
    Dict.get (files st') filename
    = Some (CsvFile (Scraper.leading_columns ++ spec_columns ++ ["images"]) rs)
    /\ StronglySorted (fun a b => String.compare a b = Lt) spec_columns
    /\ NoDup (Scraper.leading_columns ++ spec_columns ++ ["images"])
    /\ (forall c, In c spec_columns <->
                  exists product entries k,
                    In product (all_products st)
                    /\ Scraper.specifications_of product = Some entries
                    /\ In k (Dict.keys entries) /\ c = ("spec_" ++ k)%string)
    /\ Forall2 (fun product row =>
                  List.length row = 7 + List.length spec_columns
                  /\ exists entries,
                      Scraper.specifications_of product = Some entries
                      /\ row = Scraper.cells
                                 (Scraper.leading_columns ++ spec_columns ++ ["images"])
                                 (Scraper.row_of product entries))
         (all_products st) rs.
Proof.
  unfold Scraper.save_to_csv. intros H Hne.
  destruct (all_products st) as [|p ps] eqn:Eall; [contradiction|].
  destruct (Scraper.spec_fields (p :: ps)) as [fields|] eqn:Ef; [|discriminate].
  destruct (Scraper.rows (Scraper.fieldnames_of fields) (p :: ps)) as [rs|] eqn:Er;
    [|discriminate].
  injection H as <-.
  destruct (sorted_set_spec fields) as [Hsorted Hin].
  exists (Str.sorted_set fields), rs.
  assert (Hcols : forall c, In c (Str.sorted_set fields) <->
                            exists product entries k,
                              In product (p :: ps)
                              /\ Scraper.specifications_of product = Some entries
                              /\ In k (Dict.keys entries)
                              /\ c = ("spec_" ++ k)%string).
  { intros c. rewrite Hin. now apply spec_fields_In. }
  split; [|split; [exact Hsorted|split; [|split; [exact Hcols|]]]].
  - unfold after, bind, Scraper.write, Scraper.print. simpl. apply get_set_same.
  - apply NoDup_app.
    + unfold Scraper.leading_columns.
      repeat (constructor; [simpl; intuition discriminate|]). constructor.
    + apply NoDup_app; [now apply increasing_NoDup | repeat constructor; simpl; tauto|].
      intros c Hc [<-|[]]. apply Hcols in Hc.
      destruct Hc as (_ & _ & k & _ & _ & _ & Hk). discriminate Hk.
    + intros c Hc Hc'. apply in_app_iff in Hc'. destruct Hc' as [Hc'|[<-|[]]].
      * apply Hcols in Hc'. destruct Hc' as (_ & _ & k & _ & _ & _ & ->).
        apply (spec_column_not_leading k). apply in_app_iff. now left.
      * simpl in Hc. intuition discriminate.
  - eapply Forall2_impl; [|exact (rows_layout _ _ _ Er)].
    intros product row (entries & Hs & ->). split; [|eauto].
    unfold Scraper.cells, Scraper.fieldnames_of, Scraper.leading_columns.
    rewrite length_map, !length_app. simpl. lia.
Qed.

Lemma csv_layout_witness :
  let crawled :=
    after (Scraper.scrape_multiple_pages Sample.requests_get Sample.BeautifulSoup
             Sample.urljoin Sample.base_url Sample.sofas_url 1) fresh in
  exists st',
    Scraper.save_to_csv "out.csv" crawled = Some st'
    /\ exists spec_columns rs,
        Dict.get (files st') "out.csv"
        = Some (CsvFile (Scraper.leading_columns ++ spec_columns ++ ["images"]) rs)
        /\ NoDup (Scraper.leading_columns ++ spec_columns ++ ["images"])
        /\ (In "spec_Material" spec_columns <->
            exists product entries k,
              In product (all_products crawled)
              /\ Scraper.specifications_of product = Some entries
              /\ In k (Dict.keys entries) /\ "spec_Material" = ("spec_" ++ k)%string).
Proof.
  intros crawled.
  destruct (Scraper.save_to_csv "out.csv" crawled) as [st'|] eqn:E;
    [|vm_compute in E; discriminate E].
  exists st'. split; [reflexivity|].
  destruct (csv_layout "out.csv" crawled st' E) as (cols & rs & Hf & _ & Hnd & Hc & _).
  - vm_compute. discriminate.
  - exists cols, rs. split; [exact Hf|]. split; [exact Hnd | apply Hc].
Defined.

(** *** The cells of a row *)

Lemma get_absent {V : Type} (d : dict V) (k : string) :
  ~ In k (Dict.keys d) -> Dict.get d k = None.
Proof.
  intros H. destruct (Dict.get d k) eqn:E; [|reflexivity].
  exfalso. apply H. apply mem_keys. unfold Dict.mem. now rewrite E.
Qed.

Lemma spec_entries_get (entries : dict string) (row : dict value) (k : string) :
  NoDup (Dict.keys entries) ->
  Dict.get
    (fold_left (fun row '(spec_name, spec_value) =>
                  Dict.set row ("spec_" ++ spec_name)%string (VStr spec_value))
       entries row) ("spec_" ++ k)%string
  = match Dict.get entries k with
    | Some v => Some (VStr v)
    | None => Dict.get row ("spec_" ++ k)%string
    end.
Proof.
  revert row. induction entries as [|[k0 v0] entries IH]; intros row Hnd;
    simpl in *; [reflexivity|].
  inversion Hnd as [|? ? Hnin Hnd']. subst. rewrite (IH _ Hnd').
  destruct (String.eqb k0 k) eqn:E.
  - apply String.eqb_eq in E. subst k0. fold (Dict.keys entries) in Hnin.
    rewrite (get_absent _ _ Hnin). apply get_set_same.
  - destruct (Dict.get entries k); [reflexivity|].
    apply get_set_other. intros H. injection H as H. subst k0.
    now rewrite String.eqb_refl in E.
Qed.

Lemma spec_entries_keep (entries : dict string) (row : dict value) (c : string) :
  (forall k, c <> ("spec_" ++ k)%string) ->
  Dict.get
    (fold_left (fun row '(spec_name, spec_value) =>
                  Dict.set row ("spec_" ++ spec_name)%string (VStr spec_value))
       entries row) c
  = Dict.get row c.
Proof.
  intros Hc. revert row. induction entries as [|[k0 v0] entries IH]; intros row;
    simpl; [reflexivity|].
  rewrite IH. apply get_set_other. intros H. now apply (Hc k0).
Qed.

(** X14.  In the row of a record, the column [spec_<name>] holds the value
    the record's specifications give to that name and is empty when they do
    not have it; each of the six leading columns holds what the record has
    under that key, empty when the key is missing; [images] holds the image
    addresses joined by a semicolon and a space. *)
Theorem csv_row_cells (product : Product) (entries : dict string) :
  NoDup (Dict.keys entries) ->
  let row := Scraper.row_of product entries in
  (forall k,
      Scraper.get_or_empty row ("spec_" ++ k)%string
      = match Dict.get entries k with
        | Some v => VStr v
        | None => VStr EmptyString
        end)
  /\ (forall c, In c Scraper.leading_columns ->
                Scraper.get_or_empty row c = Scraper.get_or_empty product c)
  /\ Scraper.get_or_empty row "images"
     = VStr (Str.join "; " (match Dict.get product "images" with
                            | Some v => Scraper.iterate v
                            | None => []
                            end)).
Proof.
  intros Hnd row. subst row. unfold Scraper.row_of, Scraper.get_or_empty.
  split; [|split].
  - intros k. rewrite (spec_entries_get _ _ k Hnd).
    destruct (Dict.get entries k); reflexivity.
  - intros c Hc. rewrite spec_entries_keep.
    + simpl in Hc.
      repeat (destruct Hc as [<-|Hc]; [reflexivity|]). contradiction.
    + intros k ->. apply (spec_column_not_leading k). apply in_app_iff. now left.
  - rewrite spec_entries_keep; [reflexivity|]. intros k H. discriminate H.
Qed.

Lemma csv_row_cells_witness :
  let product :=
    Fields.product_of Sample.urljoin Sample.base_url Sample.alba Sample.alba_url in
  let row := Scraper.row_of product [("Material", "Oak")] in
  Scraper.get_or_empty row "spec_Material" = VStr "Oak"
  /\ Scraper.get_or_empty row "spec_Color" = VStr EmptyString
  /\ Scraper.get_or_empty row "sku" = VStr "AL-100"
  /\ Scraper.get_or_empty row "images"
     = VStr "https://www.jenniferfurniture.com/img/alba.jpg".
Proof.
  intros product row.
  assert (Hnd : NoDup (Dict.keys [("Material", "Oak")]))
    by (repeat constructor; simpl; tauto).
  destruct (csv_row_cells product [("Material", "Oak")] Hnd) as (Hs & Hl & Hi).
  split; [exact (Hs "Material")|]. split; [exact (Hs "Color")|].
  split; [|exact Hi].
  subst row. rewrite (Hl "sku"); [reflexivity | simpl; auto].
Defined.

(** *** What an export leaves alone *)

(** X15.  An export touches the file it is given and the console, nothing
    else: the records of the scraper and the log of requests are as before,
    every other file is as before, and exactly one line is printed. *)
Theorem exports_touch_only_their_file (filename other : string) (st : state) :
  other <> filename ->
  let st1 := after (Scraper.save_to_json filename) st in
  (all_products st1 = all_products st /\ requests st1 = requests st
   /\ Dict.get (files st1) other = Dict.get (files st) other
   /\ stdout st1
      = stdout st ++ [Scraper.saved_line (List.length (all_products st)) filename])
  /\ forall st2, Scraper.save_to_csv filename st = Some st2 ->
       all_products st2 = all_products st /\ requests st2 = requests st
       /\ Dict.get (files st2) other = Dict.get (files st) other
       /\ exists line, stdout st2 = stdout st ++ [line].
Proof.
  intros Hne st1. subst st1. split.
  - unfold Scraper.save_to_json, after, bind, Scraper.write, Scraper.print. simpl.
    repeat split. apply get_set_other. congruence.
  - intros st2. unfold Scraper.save_to_csv.
    destruct (all_products st) as [|p ps] eqn:E.
    + intros [= <-]. unfold after, Scraper.print. simpl. rewrite E. eauto 6.
    + destruct (Scraper.spec_fields (p :: ps)); [|discriminate].
      destruct (Scraper.rows _ (p :: ps)); [|discriminate].
      intros [= <-]. unfold after, bind, Scraper.write, Scraper.print. simpl.
      rewrite E. repeat split; [|eauto]. apply get_set_other. congruence.
Qed.

Lemma exports_touch_only_their_file_witness :
  let st := mkState [] [] [] [("notes.txt", JsonFile [])] in
  Dict.get (files (after (Scraper.save_to_json "out.json") st)) "notes.txt"
  = Some (JsonFile [])
  /\ forall st2, Scraper.save_to_csv "out.json" st = Some st2 ->
       Dict.get (files st2) "notes.txt" = Some (JsonFile []).
Proof.
  intros st.
  assert (Hne : "notes.txt" <> "out.json") by discriminate.
  destruct (exports_touch_only_their_file "out.json" "notes.txt" st Hne)
    as [(_ & _ & Hj & _) Hc].
  split; [exact Hj|]. intros st2 H2. destruct (Hc st2 H2) as (_ & _ & Hf & _).
  exact Hf.
Defined.

(** *** The entry point *)

(** X16.  The entry point never ends in an exception of the exports.  After
    it the JSON file holds exactly the records of the crawl, also when there
    are none; the CSV file exists exactly when there is at least one record,
    with one row per record; with no record the console shows the line of the
    JSON export and the notice of the CSV export, and no other file is
    written in either case. *)
Theorem main_exports (requests_get : string -> option string)
  (BeautifulSoup : string -> Bs4.Soup) (urljoin : string -> string -> string) :
  exists st,
    Scraper.main requests_get BeautifulSoup urljoin = Some st
    /\ all_products st
       = result (Scraper.scrape_multiple_pages requests_get BeautifulSoup urljoin
                   Scraper.default_base_url Scraper.start_url 4) fresh
    /\ Dict.get (files st) "jennifer_products.json"
       = Some (JsonFile (all_products st))
    /\ (all_products st = [] ->
        files st = [("jennifer_products.json", JsonFile [])]
        /\ stdout st = ["Saved 0 products to jennifer_products.json";
                        "No products to save"])
    /\ (all_products st <> [] ->
        exists fieldnames rs,
          files st = [("jennifer_products.json", JsonFile (all_products st));
                      ("jennifer_products.csv", CsvFile fieldnames rs)]
          /\ List.length rs = List.length (all_products st)).
Proof.
  unfold Scraper.main.
  set (crawl := Scraper.scrape_multiple_pages requests_get BeautifulSoup urljoin
                  Scraper.default_base_url Scraper.start_url 4).
  assert (Hwf : Forall Scraper.well_formed (all_products (after crawl fresh))).
  { apply crawl_records_well_formed. constructor. }
  assert (Hres : all_products (after crawl fresh) = result crawl fresh).
  { unfold crawl, Scraper.scrape_multiple_pages, after, result, bind.
    destruct (Scraper.pages _ _ _ _ _ _ fresh). reflexivity. }
  assert (Hquiet : stdout (after crawl fresh) = [] /\ files (after crawl fresh) = []).
  { destruct (pages_visits requests_get BeautifulSoup urljoin
                Scraper.default_base_url (Z.to_nat 4) (Some Scraper.start_url) fresh)
      as (_ & _ & _ & Ho & Hf & _ & _).
    unfold crawl, Scraper.scrape_multiple_pages, after, bind in *.
    destruct (Scraper.pages _ _ _ _ _ _ fresh). auto. }
  destruct Hquiet as [Ho Hf].
  destruct (after crawl fresh) as [products reqs out fs] eqn:Est.
  simpl in Hwf, Hres, Ho, Hf. subst out fs.
  unfold Scraper.save_to_json, Scraper.save_to_csv, after, bind, Scraper.write,
    Scraper.print. cbn [snd fst all_products requests stdout files Dict.set].
  destruct products as [|p ps].
  - eexists. split; [reflexivity|]. cbn [all_products files stdout].
    split; [exact Hres|]. split; [reflexivity|]. split; [auto | contradiction].
  - destruct (spec_fields_well_formed _ Hwf) as [fields Hfields]. rewrite Hfields.
    destruct (rows_well_formed (Scraper.fieldnames_of fields) _ Hwf)
      as (rs & Hrows & Hlen).
    rewrite Hrows. eexists. split; [reflexivity|].
    cbn [all_products files stdout Dict.set String.eqb Ascii.eqb Bool.eqb].
    split; [exact Hres|]. split; [reflexivity|]. split; [discriminate|].
    intros _. exists (Scraper.fieldnames_of fields), rs. split; [reflexivity | exact Hlen].
Qed.

Lemma main_exports_witness :
  exists st,
    Scraper.main Sample.requests_get Sample.BeautifulSoup Sample.urljoin = Some st
    /\ all_products st = []
    /\ files st = [("jennifer_products.json", JsonFile [])]
    /\ stdout st = ["Saved 0 products to jennifer_products.json";
                    "No products to save"].
Proof.
  destruct (main_exports Sample.requests_get Sample.BeautifulSoup Sample.urljoin)
    as (st & Hm & Hres & _ & Hempty & _).
  assert (He : all_products st = []) by (rewrite Hres; reflexivity).
  exists st. split; [exact Hm|]. split; [exact He|]. exact (Hempty He).
Defined.

(** ** The SKU found in the page text, and the title *)

Lemma sku_at_token (s : string) (n : nat) (tok : string) :
  Re.sku_at s = Some (n, tok) ->
  tok <> EmptyString /\ Str.all Re.sku_token_char tok = true.
Proof.
  unfold Re.sku_at. destruct (Str.drop_prefix "SKU" s) as [r|]; [|discriminate].
  set (r1 := match r with String ":"%char r' => (1, r') | _ => (0, r) end).
  destruct r1 as [colon r1'].
  destruct (Str.span Str.isspace r1') as [ws r2].
  destruct (Str.span Re.sku_token_char r2) as [t rest] eqn:Et.
  destruct (span_inv _ _ _ _ Et) as (_ & Ht & _).
  destruct t as [|c t]; [discriminate|]. intros [= _ <-].
  split; [discriminate | exact Ht].
Qed.

Section SkuAndTitle.
Import Bs4 Fields.
Variable urljoin : string -> string -> string.
Variable base_url : string.

(** X17.  When no SKU selector has an element and the page text has the
    label [SKU] followed by a token, the sku of the record is the token after
    the first such label: it is not empty and made of ASCII letters, digits
    and hyphens only. *)
Theorem sku_from_page_text (soup : Soup) (product_url : string) :
  no_element soup sku_selectors ->
  Re.findall Re.sku_at (to_str soup) <> [] ->
  exists token,
    hd_error (Re.findall Re.sku_at (to_str soup)) = Some token
    /\ Dict.get (product_of urljoin base_url soup product_url) "sku"
       = Some (VStr token)
    /\ token <> EmptyString
    /\ Str.all Re.sku_token_char token = true.
Proof.
  intros Hn Hne. rewrite product_of_shape. cbn. unfold sku_value.
  rewrite (hit_none _ _ Hn).
  assert (HF : Forall (fun tok => tok <> EmptyString
                                  /\ Str.all Re.sku_token_char tok = true)
                 (Re.findall Re.sku_at (to_str soup))).
  { apply findall_from_Forall. intros s n r H. eapply sku_at_token; eauto. }
  destruct (Re.findall Re.sku_at (to_str soup)) as [|m ms]; [contradiction|].
  inversion HF as [|? ? [Hm1 Hm2] _]. exists m. auto.
Qed.

Lemma rstrip_idempotent (s : string) : Str.rstrip (Str.rstrip s) = Str.rstrip s.
Proof.
  induction s as [|c s IH]; [reflexivity|]. simpl.
  destruct (Str.rstrip s) as [|d r] eqn:E.
  - destruct (Str.isspace c) eqn:Ec; simpl; [reflexivity | now rewrite Ec].
  - simpl. simpl in IH. rewrite IH. reflexivity.
Qed.

Lemma lstrip_head (s : string) :
  match Str.lstrip s with
  | EmptyString => True
  | String c _ => Str.isspace c = false
  end.
Proof.
  induction s as [|c s IH]; simpl; [exact I|].
  destruct (Str.isspace c) eqn:E; [exact IH | exact E].
Qed.

Lemma lstrip_rstrip (s : string) :
  match s with
  | EmptyString => True
  | String c _ => Str.isspace c = false
  end ->
  Str.lstrip (Str.rstrip s) = Str.rstrip s.
Proof.
  destruct s as [|c s]; [reflexivity|]. intros Hc. simpl.
  destruct (Str.rstrip s); rewrite ?Hc; simpl; rewrite ?Hc; reflexivity.
Qed.

Lemma strip_idempotent (s : string) : Str.strip (Str.strip s) = Str.strip s.
Proof.
  unfold Str.strip. rewrite (lstrip_rstrip _ (lstrip_head s)).
  apply rstrip_idempotent.
Qed.

(** X18.  The title of a record never carries white space at either end,
    wherever it comes from (a title selector, the first [h1] of the page or
    the sentinel): stripping it again changes nothing. *)
Theorem title_is_trimmed (soup : Soup) (product_url : string) :
  exists title,
    Dict.get (product_of urljoin base_url soup product_url) "title"
    = Some (VStr title)
    /\ Str.strip title = title.
Proof.
  rewrite product_of_shape. cbn. unfold title_value.
  destruct (hit _ title_selectors) as [e|].
  - eexists. split; [reflexivity | apply strip_idempotent].
  - destruct (find_all soup "h1") as [|e es].
    + exists "N/A". split; reflexivity.
    + eexists. split; [reflexivity | apply strip_idempotent].
Qed.

End SkuAndTitle.

Lemma sku_from_page_text_witness :
  let page := Sample.document [] [] [] "<p>Model Alba, SKU: AL-100 (oak)</p>" in
  exists token,
    hd_error (Re.findall Re.sku_at (Bs4.to_str page)) = Some token
    /\ Dict.get (Fields.product_of Sample.urljoin Sample.base_url page "u") "sku"
       = Some (VStr token)
    /\ token <> EmptyString
    /\ Str.all Re.sku_token_char token = true.
Proof.
  intros page.
  apply (sku_from_page_text Sample.urljoin Sample.base_url page "u").
  - intros s _. reflexivity.
  - discriminate.
Defined.

(** ** The price found in the page text *)

(** A dollar sign, at least one digit and, optionally, a period with two
    digits. *)
Local Abbreviation dollar_amount m :=
  (exists digits cents,
      m = (String "$"%char digits ++ cents)%string
      /\ digits <> EmptyString /\ Str.all Str.isdigit digits = true
      /\ (cents = EmptyString
          \/ exists a b, cents = String "."%char (String a (String b EmptyString))
                         /\ Str.isdigit a = true /\ Str.isdigit b = true)).

Lemma price_at_amount (s : string) (n : nat) (m : string) :
  Re.price_at s = Some (n, m) -> dollar_amount m.
Proof.
  unfold Re.price_at. destruct s as [|c s]; [discriminate|].
  destruct (Ascii.eqb c "$"%char) eqn:Ec.
  - apply Ascii.eqb_eq in Ec. subst c.
    destruct (Str.span Str.isdigit s) as [ds rest] eqn:Es.
    destruct (span_inv _ _ _ _ Es) as (_ & Hd & _).
    destruct ds as [|d ds]; [discriminate|].
    intros H. injection H as _ Hm. subst m.
    assert (Hplain : dollar_amount (String "$" (String d ds))).
    { exists (String d ds), EmptyString. repeat split; auto; [|discriminate].
      simpl. f_equal. f_equal. clear. induction ds; simpl; congruence. }
    destruct rest as [|r0 rest]; [exact Hplain|].
    destruct (Ascii.eqb r0 "."%char) eqn:Er.
    + apply Ascii.eqb_eq in Er. subst r0.
      destruct rest as [|a [|b rest]]; try exact Hplain.
      destruct (Str.isdigit a) eqn:Ea; [|exact Hplain].
      destruct (Str.isdigit b) eqn:Eb; [|exact Hplain].
      exists (String d ds), (String "." (String a (String b EmptyString))).
      repeat split; auto; [discriminate|]. right. exists a, b. auto.
    + assert (Hr : r0 <> "."%char) by (intros ->; now rewrite Ascii.eqb_refl in Er).
      destruct r0 as [[] [] [] [] [] [] [] []]; try exact Hplain; contradiction.
  - assert (Hc : c <> "$"%char) by (intros ->; now rewrite Ascii.eqb_refl in Ec).
    destruct c as [[] [] [] [] [] [] [] []]; try discriminate; contradiction.
Qed.

Section PriceInText.
Import Bs4 Fields.
Variable urljoin : string -> string -> string.
Variable base_url : string.

(** X19.  When no price selector has an element and the page text has a
    dollar amount, the price of the record is the first such amount as
    written: the dollar sign, its digits and, when a period and two digits
    follow them, these too; thousands separators and further decimals are
    not part of it. *)
Theorem price_from_page_text (soup : Soup) (product_url : string) :
  no_element soup price_selectors ->
  Re.findall Re.price_at (to_str soup) <> [] ->
  exists amount,
    hd_error (Re.findall Re.price_at (to_str soup)) = Some amount
    /\ Dict.get (product_of urljoin base_url soup product_url) "price"
       = Some (VStr amount)
    /\ dollar_amount amount.
Proof.
  intros Hn Hne. rewrite product_of_shape. cbn. unfold price_value.
  rewrite (hit_none _ _ Hn).
  assert (HF : Forall (fun m => dollar_amount m)
                 (Re.findall Re.price_at (to_str soup))).
  { apply findall_from_Forall. intros s n r H. eapply price_at_amount; eauto. }
  destruct (Re.findall Re.price_at (to_str soup)) as [|m ms]; [contradiction|].
  inversion HF as [|? ? Hm _]. exists m. auto.
Qed.
End PriceInText.

Lemma price_from_page_text_witness :
  let page := Sample.document [] [] [] "<p>From $1,299.00, or $54.125 a month</p>" in
  Dict.get (Fields.product_of Sample.urljoin Sample.base_url page "u") "price"
  = Some (VStr "$1")
  /\ exists amount,
      hd_error (Re.findall Re.price_at (Bs4.to_str page)) = Some amount
      /\ Dict.get (Fields.product_of Sample.urljoin Sample.base_url page "u") "price"
         = Some (VStr amount)
      /\ exists digits cents,
          amount = (String "$"%char digits ++ cents)%string
          /\ digits <> EmptyString /\ Str.all Str.isdigit digits = true
          /\ (cents = EmptyString
              \/ exists a b,
                  cents = String "."%char (String a (String b EmptyString))
                  /\ Str.isdigit a = true /\ Str.isdigit b = true).
Proof.
  intros page. split; [reflexivity|].
  apply (price_from_page_text Sample.urljoin Sample.base_url page "u").
  - intros s _. reflexivity.
  - discriminate.
Defined.
